(** * Local provider lifecycle: detection, install/update, capabilities,
      transport-adapter construction and the streaming session table.

    A shallow embedding of
      - src/ipc/utils/claude_code_utils.ts
      - src/ipc/handlers/local_model_claudecode_handler.ts
      - src/ipc/utils/claude_code_provider.ts, src/ipc/utils/ollama_provider.ts
      - src/ipc/utils/lm_studio_utils.ts
      - src/hooks/useClaudeCodeModels.ts
      - src/components/settings/ClaudeCodeConfiguration.tsx (event handlers)
      - the StreamingTokenBudget component
    Host queries (filesystem, child processes, environment) are read from a
    [Host] record; the module-level variable [manualClaudeCodePath] and the
    order of the host queries performed are threaded through a small
    state-and-exception monad.  An [async] function is embedded as the
    computation its promise settles with: [Returned] for a fulfilled
    promise, [Thrown] for a rejected one.  Calls to the logger are left
    out; they yield nothing and do not fail. *)

From Stdlib Require Import List String Ascii Bool Arith Lia PrimFloat.
From Stdlib Require Import DecimalString.
From Stdlib Require Import ZArith Floats.
Import ListNotations.
Local Open Scope string_scope.
Local Open Scope list_scope.

(* ================================================================= *)
(** ** JavaScript strings *)

Module JsString.

(** A single double-quote character, used when a command line is built. *)
Definition dquote : string := String (ascii_of_nat 34) EmptyString.

(** Truthiness of a string: every string but the empty one. *)
Definition truthy (s : string) : bool :=
  match s with EmptyString => false | String _ _ => true end.

(** [s.includes(sub)]. *)
Definition includes (s sub : string) : bool :=
  match String.index 0 sub s with Some _ => true | None => false end.

(** [s.endsWith(suf)]. *)
Definition endsWith (s suf : string) : bool :=
  Nat.leb (String.length suf) (String.length s)
  && String.eqb
       (String.substring (String.length s - String.length suf)
                         (String.length suf) s)
       suf.

(** White space and line terminators removed by [trim]; the code points
    below 128 (TAB, LF, VT, FF, CR, SPACE). *)
Definition is_space (c : ascii) : bool :=
  let n := nat_of_ascii c in
  (Nat.leb 9 n && Nat.leb n 13) || Nat.eqb n 32.

Fixpoint dropSpaces (l : list ascii) : list ascii :=
  match l with
  | [] => []
  | c :: r => if is_space c then dropSpaces r else l
  end.

(** [s.trim()]. *)
Definition trim (s : string) : string :=
  string_of_list_ascii
    (rev (dropSpaces (rev (dropSpaces (list_ascii_of_string s))))).

(** [s.replace(/\/$/, '')]: one slash removed at the very end. *)
Fixpoint dropFinalSlash (s : string) : string :=
  match s with
  | EmptyString => EmptyString
  | String c EmptyString => if Ascii.eqb c "/" then EmptyString else s
  | String c r => String c (dropFinalSlash r)
  end.

(** [String(n)] for a natural number. *)
Definition ofNat (n : nat) : string :=
  NilZero.string_of_uint (Nat.to_uint n).

End JsString.

(* ================================================================= *)
(** ** Values produced by [JSON.parse] *)

(** [JObj] lists the own properties of the parsed object in enumeration
    order, one entry per key. *)
#[local] Set Warnings "-register-all".
Inductive json : Type :=
| JNull
| JBool (b : bool)
| JNum (f : float)
| JStr (s : string)
| JArr (items : list json)
| JObj (props : list (string * json)).

Module Json.

(** [if (v)] for a parsed value. *)
Definition truthy (v : json) : bool :=
  match v with
  | JNull => false
  | JBool b => b
  | JNum f => negb (PrimFloat.is_zero f || PrimFloat.is_nan f)
  | JStr s => JsString.truthy s
  | JArr _ | JObj _ => true
  end.

Fixpoint assoc (k : string) (props : list (string * json)) : option json :=
  match props with
  | [] => None
  | (k', v) :: r => if String.eqb k k' then Some v else assoc k r
  end.

(** [v.k]: [None] stands for [undefined]; only parsed objects carry the
    properties read by this code. *)
Definition prop (v : json) (k : string) : option json :=
  match v with
  | JObj props => assoc k props
  | _ => None
  end.

(** [Array.isArray(v)]. *)
Definition isArray (v : json) : bool :=
  match v with JArr _ => true | _ => false end.

(** [Object.keys(v)] for a truthy value: property names of an object,
    indices of an array or of a string, nothing for numbers and booleans. *)
Definition keys (v : json) : list string :=
  match v with
  | JObj props => map fst props
  | JArr items => map JsString.ofNat (seq 0 (List.length items))
  | JStr s => map JsString.ofNat (seq 0 (String.length s))
  | _ => []
  end.

End Json.

(* ================================================================= *)
(** ** Exceptions, host effects and the monad *)

(** A thrown [Error] object. *)
Record JsError : Type := mkError { err_name : string; err_message : string }.

(** [String(error)] as [Error.prototype.toString] renders it. *)
Definition String_of_error (e : JsError) : string :=
  if JsString.truthy (err_name e) then
    if JsString.truthy (err_message e)
    then err_name e ++ ": " ++ err_message e
    else err_name e
  else err_message e.

Inductive Outcome (A : Type) : Type :=
| Returned (a : A)
| Thrown (e : JsError).
Arguments Returned {A} a.
Arguments Thrown {A} e.

Inductive Platform : Type :=
| darwin
| linux
| win32
| other_platform (name : string).

(** What the process can observe of the machine it runs on. *)
Record Host : Type := mkHost {
  platform : Platform;                               (* os.platform() *)
  homedir : string;                                  (* os.homedir() *)
  join : list string -> string;                      (* path.join(...segments) *)
  host_existsSync : string -> bool;                  (* fs.existsSync *)
  host_execSync : string -> Outcome string;          (* child_process.execSync *)
  host_readdirSync : string -> Outcome (list string);
  host_isDirectory : string -> Outcome bool;         (* statSync(p).isDirectory() *)
  host_readFileSync : string -> Outcome string;
  JSON_parse : string -> Outcome json;
  env_CLAUDE_CODE_PORT : option string               (* process.env.CLAUDE_CODE_PORT *)
}.

(** Host queries, recorded in the order performed (newest first). *)
Inductive Effect : Type :=
| FsExists (path : string)
| FsReaddir (path : string)
| FsStat (path : string)
| FsReadFile (path : string)
| Exec (command : string).

(** The module state of claude_code_utils.ts together with the query log. *)
Record Machine : Type := mkMachine {
  manualClaudeCodePath : option string;
  trace : list Effect
}.

Definition M (A : Type) : Type := Machine -> Outcome A * Machine.

Definition ret {A} (a : A) : M A := fun m => (Returned a, m).

Definition bind {A B} (c : M A) (k : A -> M B) : M B :=
  fun m =>
    match c m with
    | (Returned a, m') => k a m'
    | (Thrown e, m') => (Thrown e, m')
    end.

Definition throw {A} (e : JsError) : M A := fun m => (Thrown e, m).

(** [try { c } catch (e) { h e }]. *)
Definition try_catch {A} (c : M A) (h : JsError -> M A) : M A :=
  fun m =>
    match c m with
    | (Returned a, m') => (Returned a, m')
    | (Thrown e, m') => h e m'
    end.

Declare Scope js_scope.
Delimit Scope js_scope with js.
Notation "x <- c ;; k" := (bind c (fun x => k))
  (at level 61, c at next level, right associativity) : js_scope.
Local Open Scope js_scope.

Definition record (e : Effect) (m : Machine) : Machine :=
  mkMachine (manualClaudeCodePath m) (e :: trace m).

Definition query {A} (e : Effect) (r : Outcome A) : M A :=
  fun m => (r, record e m).

Definition readManual : M (option string) :=
  fun m => (Returned (manualClaudeCodePath m), m).

(** A pure library call that may throw. *)
Definition lift {A} (r : Outcome A) : M A := fun m => (r, m).

(** Result and new machine of running a computation. *)
Definition result {A} (c : M A) (m : Machine) : Outcome A := fst (c m).
Definition after {A} (c : M A) (m : Machine) : Machine := snd (c m).

(* ================================================================= *)
(** ** src/ipc/utils/claude_code_utils.ts *)

(** The shape returned by [installClaudeCode] and [updateClaudeCode];
    [error = None] when the property is left out. *)
Record CommandResult : Type := mkCommandResult {
  success : bool;
  output : string;
  error : option string
}.

(** Capability groups are JavaScript arrays; the entries read from
    settings.json are whatever the file holds. *)
Record ClaudeCodeCapabilities : Type := mkCapabilities {
  mcpServers : list json;
  skills : list json;
  plugins : list json;
  agents : list json;
  subAgents : list json;
  models : list json
}.

Definition CLAUDE_CODE_DEFAULT_PORT : nat := 3000.

(** [error?.message || String(error)]. *)
Definition errorMessage_of (e : JsError) : string :=
  if JsString.truthy (err_message e) then err_message e else String_of_error e.

(** [!claudePath] is false exactly for a non-empty string. *)
Definition truthy_path (p : option string) : bool :=
  match p with
  | Some s => JsString.truthy s
  | None => false
  end.

Definition setManualClaudeCodePath (path : option string) : M unit :=
  fun m => (Returned tt, mkMachine path (trace m)).

Definition getManualClaudeCodePath : M (option string) := readManual.

Section Utils.

Variable H : Host.

Definition existsSync (p : string) : M bool :=
  query (FsExists p) (Returned (host_existsSync H p)).
Definition execSync (cmd : string) : M string :=
  query (Exec cmd) (host_execSync H cmd).
Definition readdirSync (p : string) : M (list string) :=
  query (FsReaddir p) (host_readdirSync H p).
Definition statSync_isDirectory (p : string) : M bool :=
  query (FsStat p) (host_isDirectory H p).
Definition readFileSync (p : string) : M string :=
  query (FsReadFile p) (host_readFileSync H p).

(** The [darwin] and [linux] entries of the table list the same five
    paths. *)
Definition unix_paths : list string :=
  [ join H [homedir H; ".claude/claude"];
    join H [homedir H; ".claude/bin/claude"];
    "/usr/local/bin/claude";
    join H [homedir H; ".local/bin/claude"];
    join H [homedir H; "bin/claude"] ].

(** [CLAUDE_CODE_PATHS[p] || []]. *)
Definition CLAUDE_CODE_PATHS (p : Platform) : list string :=
  match p with
  | darwin => unix_paths
  | linux => unix_paths
  | win32 => [ "C:\Windows\System32\wsl.exe" ]
  | other_platform _ => []
  end.

(** The [for (const path of paths)] loop of [detectClaudeCodePath]. *)
Fixpoint firstExisting (paths : list string) : M (option string) :=
  match paths with
  | [] => ret None
  | path :: rest =>
      found <- existsSync path ;;
      if found then ret (Some path) else firstExisting rest
  end.

(** The [try] block around [which claude]; [None] when control falls
    through to the final [return null]. *)
Definition whichProbe : M (option string) :=
  try_catch
    (out <- execSync "which claude" ;;
     let whichResult := JsString.trim out in
     if JsString.truthy whichResult then
       found <- existsSync whichResult ;;
       if found then ret (Some whichResult) else ret None
     else ret None)
    (fun _ => ret None).

Definition detectClaudeCodePath : M (option string) :=
  manual <- readManual ;;
  useManual <- match manual with
               | Some p =>
                   if JsString.truthy p then existsSync p else ret false
               | None => ret false
               end ;;
  if useManual then ret manual
  else
    match platform H with
    | win32 => ret None
    | currentPlatform =>
        hit <- firstExisting (CLAUDE_CODE_PATHS currentPlatform) ;;
        match hit with
        | Some path => ret (Some path)
        | None => whichProbe
        end
    end.

Definition isClaudeCodeInstalled : M bool :=
  p <- detectClaudeCodePath ;;
  ret (match p with Some _ => true | None => false end).

Definition getClaudeCodeBaseUrl : string :=
  let port :=
    match env_CLAUDE_CODE_PORT H with
    | Some v => if JsString.truthy v then v
                else JsString.ofNat CLAUDE_CODE_DEFAULT_PORT
    | None => JsString.ofNat CLAUDE_CODE_DEFAULT_PORT
    end in
  "http://localhost:" ++ port.

Definition getClaudeCodeVersion : M (option string) :=
  claudePath <- detectClaudeCodePath ;;
  match claudePath with
  | Some p =>
      if JsString.truthy p then
        try_catch
          (out <- execSync (JsString.dquote ++ p ++ JsString.dquote
                            ++ " --version") ;;
           ret (Some (JsString.trim out)))
          (fun _ => ret None)
      else ret None
  | None => ret None
  end.

Definition PERMISSION_MESSAGE : string :=
  "Permission denied. Please try again with sudo (requires password).".

Definition installClaudeCode (useSudo : bool) : M CommandResult :=
  try_catch
    (let installCommand :=
       if useSudo then "sudo npm install -g @anthropic-ai/claude-code"
       else "npm install -g @anthropic-ai/claude-code" in
     out <- execSync installCommand ;;
     ret (mkCommandResult true (JsString.trim out) None))
    (fun e =>
       let errorMessage := errorMessage_of e in
       if JsString.includes errorMessage "EACCES"
          || JsString.includes errorMessage "permission denied"
       then ret (mkCommandResult false EmptyString (Some PERMISSION_MESSAGE))
       else ret (mkCommandResult false EmptyString (Some errorMessage))).

Definition updateClaudeCode : M CommandResult :=
  claudePath <- detectClaudeCodePath ;;
  if truthy_path claudePath then
    try_catch
      (out <- execSync "clu update" ;;
       ret (mkCommandResult true (JsString.trim out) None))
      (fun e =>
         ret (mkCommandResult false EmptyString (Some (errorMessage_of e))))
  else
    ret (mkCommandResult false EmptyString
           (Some "Claude Code is not installed")).

(** The [filter] callback of [listDirectories], item by item. *)
Fixpoint filterDirectories (dirPath : string) (items : list string)
  : M (list string) :=
  match items with
  | [] => ret []
  | item :: rest =>
      keep <- try_catch (statSync_isDirectory (join H [dirPath; item]))
                        (fun _ => ret false) ;;
      kept <- filterDirectories dirPath rest ;;
      ret (if keep then item :: kept else kept)
  end.

Definition listDirectories (dirPath : string) : M (list string) :=
  try_catch
    (found <- existsSync dirPath ;;
     if negb found then ret []
     else
       items <- readdirSync dirPath ;;
       filterDirectories dirPath items)
    (fun _ => ret []).

(** [JNull] is the [null] the function returns when the file is missing
    or cannot be read or parsed. *)
Definition readClaudeCodeSettings : M json :=
  try_catch
    (let settingsPath := join H [homedir H; ".claude"; "settings.json"] in
     found <- existsSync settingsPath ;;
     if found then
       settingsContent <- readFileSync settingsPath ;;
       lift (JSON_parse H settingsContent)
     else ret JNull)
    (fun _ => ret JNull).

Definition getClaudeCodeSettings : M json := readClaudeCodeSettings.

(** [settings.models && Array.isArray(settings.models)]. *)
Definition models_of_settings (settings : json) : list json :=
  match Json.prop settings "models" with
  | Some (JArr items) => items
  | _ => []
  end.

(** The [if (settings.mcpServers)] branch. *)
Definition mcpServers_of_settings (settings : json) : list json :=
  match Json.prop settings "mcpServers" with
  | Some v =>
      if Json.truthy v then
        match v with
        | JArr items => items
        | _ => map JStr (Json.keys v)
        end
      else []
  | None => []
  end.

Definition detectClaudeCodeCapabilities : M (option ClaudeCodeCapabilities) :=
  claudePath <- detectClaudeCodePath ;;
  if negb (truthy_path claudePath) then ret None
  else
    try_catch
      (let claudeDir := join H [homedir H; ".claude"] in
       haveDir <- existsSync claudeDir ;;
       if negb haveDir then ret None
       else
         let agentsDir := join H [claudeDir; "agents"] in
         haveAgents <- existsSync agentsDir ;;
         agents_ <- (if haveAgents then listDirectories agentsDir
                     else ret []) ;;
         let pluginsDir := join H [claudeDir; "plugins"] in
         havePlugins <- existsSync pluginsDir ;;
         plugins_ <- (if havePlugins then listDirectories pluginsDir
                      else ret []) ;;
         settings <- readClaudeCodeSettings ;;
         let models_ :=
           if Json.truthy settings then models_of_settings settings
           else [] in
         let mcpServers_ :=
           if Json.truthy settings then mcpServers_of_settings settings
           else [] in
         ret (Some (mkCapabilities mcpServers_ [] (map JStr plugins_)
                                   (map JStr agents_) [] models_)))
      (fun _ => ret None).

End Utils.

(* ================================================================= *)
(** ** src/ipc/handlers/local_model_claudecode_handler.ts *)

Record LocalModel : Type := mkLocalModel {
  modelName : string;
  displayName : string;
  provider : string
}.

Record ClaudeCodeInstallationInfo : Type := mkInstallationInfo {
  installed : bool;
  path : option string;
  version : option string
}.

Section Handlers.

Variable H : Host.

Definition NOT_INSTALLED_ERROR : JsError :=
  mkError "Error"
    "Claude Code is not installed. Please install Claude Code CLI first.".

Definition fetchClaudeCodeModels : M (list LocalModel) :=
  isInstalled <- isClaudeCodeInstalled H ;;
  if negb isInstalled then throw NOT_INSTALLED_ERROR
  else
    ret [ mkLocalModel "claude-sonnet-4.5" "Claude Sonnet 4.5" "claudecode";
          mkLocalModel "claude-sonnet-4" "Claude Sonnet 4" "claudecode";
          mkLocalModel "claude-opus-4" "Claude Opus 4" "claudecode";
          mkLocalModel "claude-haiku-4" "Claude Haiku 4" "claudecode" ].

Definition getClaudeCodeInstallationInfo : M ClaudeCodeInstallationInfo :=
  path_ <- detectClaudeCodePath H ;;
  let installed_ := match path_ with Some _ => true | None => false end in
  version_ <- (if installed_ then getClaudeCodeVersion H else ret None) ;;
  ret (mkInstallationInfo installed_ path_ version_).

Definition getClaudeCodeCapabilities : M (option ClaudeCodeCapabilities) :=
  detectClaudeCodeCapabilities H.

Definition handleInstallClaudeCode (useSudo : bool) : M CommandResult :=
  installClaudeCode H useSudo.

Definition handleUpdateClaudeCode : M CommandResult :=
  updateClaudeCode H.

End Handlers.

(* ================================================================= *)
(** ** src/ipc/utils/claude_code_provider.ts and ollama_provider.ts *)

Record ProviderOptions : Type := mkOptions {
  baseURL : option string;
  headers : option (list (string * string))
}.

(** The settings handed to [createOpenAICompatible]. *)
Record OpenAICompatibleSettings : Type := mkSettings {
  settings_name : string;
  settings_baseURL : string;
  settings_headers : option (list (string * string))
}.

(** [withoutTrailingSlash] of @ai-sdk/provider-utils. *)
Definition withoutTrailingSlash (url : string) : string :=
  JsString.dropFinalSlash url.

(** [options?.baseURL ?? fallback]. *)
Definition baseURL_or (options : option ProviderOptions) (fallback : string)
  : string :=
  match options with
  | Some o => match baseURL o with Some u => u | None => fallback end
  | None => fallback
  end.

Definition options_headers (options : option ProviderOptions)
  : option (list (string * string)) :=
  match options with Some o => headers o | None => None end.

Definition createClaudeCodeProvider (H : Host)
  (options : option ProviderOptions) : OpenAICompatibleSettings :=
  let base := withoutTrailingSlash
                (baseURL_or options (getClaudeCodeBaseUrl H)) in
  let v1Base := if JsString.endsWith base "/v1" then base
                else (base ++ "/v1")%string in
  mkSettings "claudecode" v1Base (options_headers options).

Definition createOllamaProvider
  (options : option ProviderOptions) : OpenAICompatibleSettings :=
  let base := withoutTrailingSlash
                (baseURL_or options "http://localhost:11434") in
  let v1Base := if JsString.endsWith base "/v1" then base
                else (base ++ "/v1")%string in
  mkSettings "ollama" v1Base (options_headers options).

(* ================================================================= *)
(** ** The streaming session table

    The stream handlers that own the session table
    (src/ipc/handlers/chat_stream_handlers.ts) are not among the sources
    embedded above; the table and its operations follow sections 3 and 4.6
    of the specification. *)

Module SessionManager.

(** Modelled from the spec: the session manager's status values,
    [status] in {Active, Aborted, Completed, Failed}. *)
Inductive Status : Type := Active | Aborted | Completed | Failed.

(** Modelled from the spec: the session manager's usage counters,
    [{promptTokens, completionTokens, contextWindow}]. *)
Record Usage : Type := mkUsage {
  promptTokens : nat;
  completionTokens : nat;
  contextWindow : nat
}.

(** Modelled from the spec: the session manager's Session entity;
    identifiers and the cancel handle are opaque and numbered here. *)
Record Session : Type := mkSession {
  sessionId : nat;
  conversationId : nat;
  providerId : string;
  status : Status;
  startedAt : nat;
  cumulativeUsage : Usage;
  cancelHandle : nat
}.

(** Modelled from the spec: the session manager's active-session table
    together with the next unused session identifier. *)
Record Manager : Type := mkManager {
  sessions : list Session;
  nextSessionId : nat
}.

(** Modelled from the spec: the session manager's failures of [start]
    and [abort]. *)
Inductive Failure : Type := ConversationBusy | UnknownSession.

(** Modelled from the spec: the events the session manager hands to the
    boundary bridge. *)
Inductive Event : Type :=
| SessionCreated (conversation session : nat)
| ChunkEvent (conversation : nat) (delta : string)
| TokenBudget (conversation used total : nat)
| EndEvent (conversation : nat) (finalUsage : Usage)
| ErrorEvent (conversation : nat) (reason : string)
| AbortedEvent (conversation : nat).

(** Modelled from the spec: the session manager at process start, with
    an empty table. *)
Definition empty : Manager := mkManager [] 0.

Definition is_active (s : Session) : bool :=
  match status s with Active => true | _ => false end.

(** Modelled from the spec: the session manager's notion of an Active
    session of conversation [c]. *)
Definition active_for (c : nat) (s : Session) : bool :=
  is_active s && Nat.eqb (conversationId s) c.

Definition lookup (sid : nat) (mgr : Manager) : option Session :=
  find (fun s => Nat.eqb (sessionId s) sid) (sessions mgr).

(** Modelled from the spec: the session manager's deregistration, the
    removal of a session from the active-session table. *)
Definition deregister (sid : nat) (mgr : Manager) : Manager :=
  mkManager
    (filter (fun s => negb (Nat.eqb (sessionId s) sid)) (sessions mgr))
    (nextSessionId mgr).

(** Modelled from the spec: the session manager's [start]; it fails
    with [ConversationBusy] if an Active session exists for the
    conversation, otherwise allocates a fresh identifier and registers
    the session as Active. *)
Definition start (conversation : nat) (provider : string) (now : nat)
  (mgr : Manager) : (Failure + nat) * list Event * Manager :=
  if existsb (active_for conversation) (sessions mgr)
  then (inl ConversationBusy, [], mgr)
  else
    let sid := nextSessionId mgr in
    let s := mkSession sid conversation provider Active now
                       (mkUsage 0 0 0) sid in
    (inr sid, [SessionCreated conversation sid],
     mkManager (s :: sessions mgr) (S sid)).

Definition add_usage (u : option Usage) (s : Session) : Session :=
  match u with
  | Some d =>
      mkSession (sessionId s) (conversationId s) (providerId s) (status s)
        (startedAt s)
        (mkUsage (promptTokens (cumulativeUsage s) + promptTokens d)
                 (completionTokens (cumulativeUsage s) + completionTokens d)
                 (contextWindow d))
        (cancelHandle s)
  | None => s
  end.

(** Modelled from the spec: the session manager's handling of a delta;
    usage is added when the chunk carries it and a chunk event is
    emitted; a chunk for a session no longer in the table is dropped. *)
Definition chunk (sid : nat) (delta : string) (u : option Usage)
  (mgr : Manager) : list Event * Manager :=
  match lookup sid mgr with
  | Some s =>
      let s' := add_usage u s in
      (ChunkEvent (conversationId s) delta
       :: match u with
          | Some _ =>
              [TokenBudget (conversationId s)
                 (promptTokens (cumulativeUsage s')
                  + completionTokens (cumulativeUsage s'))
                 (contextWindow (cumulativeUsage s'))]
          | None => []
          end,
       mkManager
         (map (fun x => if Nat.eqb (sessionId x) sid
                        then add_usage u x else x) (sessions mgr))
         (nextSessionId mgr))
  | None => ([], mgr)
  end.

(** Modelled from the spec: the session manager on the natural end of a
    stream: Completed, end event with the final usage, deregistration. *)
Definition finish (sid : nat) (mgr : Manager) : list Event * Manager :=
  match lookup sid mgr with
  | Some s =>
      ([TokenBudget (conversationId s)
          (promptTokens (cumulativeUsage s)
           + completionTokens (cumulativeUsage s))
          (contextWindow (cumulativeUsage s));
        EndEvent (conversationId s) (cumulativeUsage s)],
       deregister sid mgr)
  | None => ([], mgr)
  end.

(** Modelled from the spec: the session manager's [abort]; it fails
    with [UnknownSession] if the session is not in the table, otherwise
    the session becomes Aborted and is deregistered at once. *)
Definition abort (sid : nat) (mgr : Manager)
  : (Failure + unit) * list Event * Manager :=
  match lookup sid mgr with
  | Some s =>
      (inr tt, [AbortedEvent (conversationId s)], deregister sid mgr)
  | None => (inl UnknownSession, [], mgr)
  end.

(** Modelled from the spec: the session manager on a transport error:
    Failed, error event with the reason, deregistration. *)
Definition fail (sid : nat) (reason : string) (mgr : Manager)
  : list Event * Manager :=
  match lookup sid mgr with
  | Some s => ([ErrorEvent (conversationId s) reason], deregister sid mgr)
  | None => ([], mgr)
  end.

(** Modelled from the spec: what can happen to the session manager. *)
Inductive Command : Type :=
| Start (conversation : nat) (provider : string) (now : nat)
| Chunk (session : nat) (delta : string) (usage : option Usage)
| StreamEnd (session : nat)
| Abort (session : nat)
| TransportError (session : nat) (reason : string).

Definition step (c : Command) (mgr : Manager) : Manager :=
  match c with
  | Start conversation provider now =>
      snd (start conversation provider now mgr)
  | Chunk sid delta u => snd (chunk sid delta u mgr)
  | StreamEnd sid => snd (finish sid mgr)
  | Abort sid => snd (abort sid mgr)
  | TransportError sid reason => snd (fail sid reason mgr)
  end.

Definition run (cs : list Command) (mgr : Manager) : Manager :=
  fold_left (fun m c => step c m) cs mgr.

(** The states the manager can be in: the empty table and whatever a
    command makes of a reachable state. *)
Inductive reachable : Manager -> Prop :=
| reach_empty : reachable empty
| reach_step c mgr : reachable mgr -> reachable (step c mgr).

Definition active_count (c : nat) (mgr : Manager) : nat :=
  List.length (filter (active_for c) (sessions mgr)).

(** At most one Active session per conversation. *)
Definition exclusive (mgr : Manager) : Prop :=
  forall c, active_count c mgr <= 1.

End SessionManager.

(* ================================================================= *)
(** ** Process probes: lm_studio_utils.ts and ollama_provider.ts *)




(* ================================================================= *)
(** ** The path dialog of local_model_claudecode_handler.ts *)

(** What [dialog.showOpenDialog] resolves with. *)
Record OpenDialogReturnValue : Type := mkDialogResult {
  canceled : bool;
  filePaths : list string
}.

(** [selectClaudeCodePath]; the settled dialog promise is an argument. *)
Definition selectClaudeCodePath (dialog : Outcome OpenDialogReturnValue)
  : M (option string) :=
  chosen <- lift dialog ;;
  if canceled chosen || Nat.eqb (List.length (filePaths chosen)) 0
  then ret None
  else
    match filePaths chosen with
    | selectedPath :: _ =>
        ignored <- setManualClaudeCodePath (Some selectedPath) ;;
        ret (Some selectedPath)
    | [] => ret None
    end.

(* ================================================================= *)
(** ** The renderer side: src/hooks/useClaudeCodeModels.ts and
       src/components/settings/ClaudeCodeConfiguration.tsx *)

(** The methods of [IpcClient] used by the hook.  ipc_client.ts is not
    among the sources, so each method is any computation of the main
    process. *)
Record IpcClient : Type := mkIpcClient {
  listLocalClaudeCodeModels : M (list LocalModel);
  ipc_getClaudeCodeInstallationInfo : M ClaudeCodeInstallationInfo;
  ipc_getClaudeCodeCapabilities : M (option ClaudeCodeCapabilities);
  ipc_selectClaudeCodePath : M (option string);
  ipc_installClaudeCode : bool -> M CommandResult;
  ipc_updateClaudeCode : M CommandResult
}.

Record Toast : Type := mkToast {
  title : string;
  description : string;
  variant : option string
}.

(** The jotai atoms of the hook, the [useState] cells of the settings
    component, the toasts shown so far (newest first) and the main process
    behind the IPC client. *)
Record Renderer : Type := mkRenderer {
  claudeCodeModelsAtom : list LocalModel;
  claudeCodeModelsLoadingAtom : bool;
  claudeCodeModelsErrorAtom : option JsError;
  claudeCodeInstallationAtom : option ClaudeCodeInstallationInfo;
  claudeCodeCapabilitiesAtom : option ClaudeCodeCapabilities;
  isSelecting : bool;
  isInstalling : bool;
  isUpdating : bool;
  toasts : list Toast;
  main : Machine
}.

Definition UI (A : Type) : Type := Renderer -> Outcome A * Renderer.

Module Ui.

Definition ret {A} (a : A) : UI A := fun w => (Returned a, w).

Definition bind {A B} (c : UI A) (k : A -> UI B) : UI B :=
  fun w =>
    match c w with
    | (Returned a, w') => k a w'
    | (Thrown e, w') => (Thrown e, w')
    end.

Definition try_catch {A} (c : UI A) (h : JsError -> UI A) : UI A :=
  fun w =>
    match c w with
    | (Returned a, w') => (Returned a, w')
    | (Thrown e, w') => h e w'
    end.

(** [try { c } finally { f }]: [f] runs on both exits. *)
Definition finally {A} (c : UI A) (f : UI unit) : UI A :=
  fun w =>
    match c w with
    | (r, w') =>
        match f w' with
        | (Returned _, w'') => (r, w'')
        | (Thrown e, w'') => (Thrown e, w'')
        end
    end.

(** [await] of an IPC call: the call runs in the main process. *)
Definition invoke {A} (c : M A) : UI A :=
  fun w =>
    match c (main w) with
    | (r, m') =>
        (r, mkRenderer (claudeCodeModelsAtom w) (claudeCodeModelsLoadingAtom w)
              (claudeCodeModelsErrorAtom w) (claudeCodeInstallationAtom w)
              (claudeCodeCapabilitiesAtom w) (isSelecting w) (isInstalling w)
              (isUpdating w) (toasts w) m')
    end.

Definition update (f : Renderer -> Renderer) : UI unit :=
  fun w => (Returned tt, f w).

Definition setModels (v : list LocalModel) : UI unit :=
  update (fun w => mkRenderer v (claudeCodeModelsLoadingAtom w)
    (claudeCodeModelsErrorAtom w) (claudeCodeInstallationAtom w)
    (claudeCodeCapabilitiesAtom w) (isSelecting w) (isInstalling w)
    (isUpdating w) (toasts w) (main w)).
Definition setLoading (v : bool) : UI unit :=
  update (fun w => mkRenderer (claudeCodeModelsAtom w) v
    (claudeCodeModelsErrorAtom w) (claudeCodeInstallationAtom w)
    (claudeCodeCapabilitiesAtom w) (isSelecting w) (isInstalling w)
    (isUpdating w) (toasts w) (main w)).
Definition setError (v : option JsError) : UI unit :=
  update (fun w => mkRenderer (claudeCodeModelsAtom w)
    (claudeCodeModelsLoadingAtom w) v (claudeCodeInstallationAtom w)
    (claudeCodeCapabilitiesAtom w) (isSelecting w) (isInstalling w)
    (isUpdating w) (toasts w) (main w)).
Definition setInstallation (v : option ClaudeCodeInstallationInfo) : UI unit :=
  update (fun w => mkRenderer (claudeCodeModelsAtom w)
    (claudeCodeModelsLoadingAtom w) (claudeCodeModelsErrorAtom w) v
    (claudeCodeCapabilitiesAtom w) (isSelecting w) (isInstalling w)
    (isUpdating w) (toasts w) (main w)).
Definition setCapabilities (v : option ClaudeCodeCapabilities) : UI unit :=
  update (fun w => mkRenderer (claudeCodeModelsAtom w)
    (claudeCodeModelsLoadingAtom w) (claudeCodeModelsErrorAtom w)
    (claudeCodeInstallationAtom w) v (isSelecting w) (isInstalling w)
    (isUpdating w) (toasts w) (main w)).
Definition setIsSelecting (v : bool) : UI unit :=
  update (fun w => mkRenderer (claudeCodeModelsAtom w)
    (claudeCodeModelsLoadingAtom w) (claudeCodeModelsErrorAtom w)
    (claudeCodeInstallationAtom w) (claudeCodeCapabilitiesAtom w) v
    (isInstalling w) (isUpdating w) (toasts w) (main w)).
Definition setIsInstalling (v : bool) : UI unit :=
  update (fun w => mkRenderer (claudeCodeModelsAtom w)
    (claudeCodeModelsLoadingAtom w) (claudeCodeModelsErrorAtom w)
    (claudeCodeInstallationAtom w) (claudeCodeCapabilitiesAtom w)
    (isSelecting w) v (isUpdating w) (toasts w) (main w)).
Definition setIsUpdating (v : bool) : UI unit :=
  update (fun w => mkRenderer (claudeCodeModelsAtom w)
    (claudeCodeModelsLoadingAtom w) (claudeCodeModelsErrorAtom w)
    (claudeCodeInstallationAtom w) (claudeCodeCapabilitiesAtom w)
    (isSelecting w) (isInstalling w) v (toasts w) (main w)).
Definition toast (t : Toast) : UI unit :=
  update (fun w => mkRenderer (claudeCodeModelsAtom w)
    (claudeCodeModelsLoadingAtom w) (claudeCodeModelsErrorAtom w)
    (claudeCodeInstallationAtom w) (claudeCodeCapabilitiesAtom w)
    (isSelecting w) (isInstalling w) (isUpdating w) (t :: toasts w) (main w)).

End Ui.

Declare Scope ui_scope.
Delimit Scope ui_scope with ui.
Notation "x <- c ;; k" := (Ui.bind c (fun x => k))
  (at level 61, c at next level, right associativity) : ui_scope.

(** The callbacks returned by the hook [useClaudeCodeModels].  A caught
    value is always an [Error] here, so [error instanceof Error ? error :
    new Error(String(error))] is the value itself and
    [error instanceof Error ? error.message : String(error)] its message. *)
Module useClaudeCodeModels.
Local Open Scope ui_scope.

Section Hook.

Variable ipcClient : IpcClient.

Definition loadModels : UI (list LocalModel) :=
  ignored <- Ui.setLoading true ;;
  Ui.finally
    (Ui.try_catch
       (modelList <- Ui.invoke (listLocalClaudeCodeModels ipcClient) ;;
        ignored <- Ui.setModels modelList ;;
        ignored <- Ui.setError None ;;
        Ui.ret modelList)
       (fun error =>
          ignored <- Ui.setError (Some error) ;;
          Ui.ret []))
    (Ui.setLoading false).

Definition checkInstallation : UI ClaudeCodeInstallationInfo :=
  Ui.try_catch
    (info <- Ui.invoke (ipc_getClaudeCodeInstallationInfo ipcClient) ;;
     ignored <- Ui.setInstallation (Some info) ;;
     Ui.ret info)
    (fun _ =>
       ignored <- Ui.setInstallation
                    (Some (mkInstallationInfo false None None)) ;;
       Ui.ret (mkInstallationInfo false None None)).

Definition loadCapabilities : UI (option ClaudeCodeCapabilities) :=
  Ui.try_catch
    (caps <- Ui.invoke (ipc_getClaudeCodeCapabilities ipcClient) ;;
     ignored <- Ui.setCapabilities caps ;;
     Ui.ret caps)
    (fun _ =>
       ignored <- Ui.setCapabilities None ;;
       Ui.ret None).

Definition selectPath : UI (option string) :=
  Ui.try_catch
    (selectedPath <- Ui.invoke (ipc_selectClaudeCodePath ipcClient) ;;
     ignored <- (if truthy_path selectedPath then
                   ignored <- checkInstallation ;;
                   ignored <- loadCapabilities ;;
                   Ui.ret tt
                 else Ui.ret tt) ;;
     Ui.ret selectedPath)
    (fun _ => Ui.ret None).

Definition installClaudeCode (useSudo : bool) : UI CommandResult :=
  Ui.try_catch
    (outcome <- Ui.invoke (ipc_installClaudeCode ipcClient useSudo) ;;
     ignored <- (if success outcome then
                   ignored <- checkInstallation ;;
                   ignored <- loadCapabilities ;;
                   Ui.ret tt
                 else Ui.ret tt) ;;
     Ui.ret outcome)
    (fun error =>
       Ui.ret (mkCommandResult false EmptyString (Some (err_message error)))).

Definition updateClaudeCode : UI CommandResult :=
  Ui.try_catch
    (outcome <- Ui.invoke (ipc_updateClaudeCode ipcClient) ;;
     ignored <- (if success outcome then
                   ignored <- checkInstallation ;;
                   ignored <- loadCapabilities ;;
                   Ui.ret tt
                 else Ui.ret tt) ;;
     Ui.ret outcome)
    (fun error =>
       Ui.ret (mkCommandResult false EmptyString (Some (err_message error)))).

End Hook.

End useClaudeCodeModels.

(** The event handlers of the component [ClaudeCodeConfiguration]. *)
Module ClaudeCodeConfiguration.
Local Open Scope ui_scope.

Definition destructive : option string := Some "destructive".

(** [s || fallback] for an optional string. *)
Definition or_else (s : option string) (fallback : string) : string :=
  match s with
  | Some v => if JsString.truthy v then v else fallback
  | None => fallback
  end.

(** [result.error?.includes(needle)] as a condition. *)
Definition error_includes (r : CommandResult) (needle : string) : bool :=
  match error r with
  | Some v => JsString.includes v needle
  | None => false
  end.

Section Component.

Variable ipcClient : IpcClient.

Definition handleRefresh : UI unit :=
  ignored <- useClaudeCodeModels.checkInstallation ipcClient ;;
  ignored <- useClaudeCodeModels.loadCapabilities ipcClient ;;
  Ui.ret tt.

Definition handleSelectPath : UI unit :=
  ignored <- Ui.setIsSelecting true ;;
  Ui.finally
    (Ui.try_catch
       (path_ <- useClaudeCodeModels.selectPath ipcClient ;;
        if truthy_path path_ then
          Ui.toast (mkToast "Path selected"
                      "Claude Code path has been set successfully." None)
        else Ui.ret tt)
       (fun error =>
          Ui.toast (mkToast "Error" (err_message error) destructive)))
    (Ui.setIsSelecting false).

Definition handleInstall (useSudo : bool) : UI unit :=
  ignored <- Ui.setIsInstalling true ;;
  Ui.finally
    (Ui.try_catch
       (outcome <- useClaudeCodeModels.installClaudeCode ipcClient useSudo ;;
        if success outcome then
          Ui.toast (mkToast "Installation successful"
                      "Claude Code has been installed successfully." None)
        else if error_includes outcome "EACCES" && negb useSudo then
          Ui.toast (mkToast "Permission denied"
                      "Installation requires administrator privileges. Try with sudo?"
                      destructive)
        else
          Ui.toast (mkToast "Installation failed"
                      (or_else (error outcome) "Failed to install Claude Code")
                      destructive))
       (fun error =>
          Ui.toast (mkToast "Installation error" (err_message error)
                      destructive)))
    (Ui.setIsInstalling false).

Definition handleUpdate : UI unit :=
  ignored <- Ui.setIsUpdating true ;;
  Ui.finally
    (Ui.try_catch
       (outcome <- useClaudeCodeModels.updateClaudeCode ipcClient ;;
        if success outcome then
          Ui.toast (mkToast "Update successful"
                      "Claude Code has been updated successfully." None)
        else
          Ui.toast (mkToast "Update failed"
                      (or_else (error outcome) "Failed to update Claude Code")
                      destructive))
       (fun error =>
          Ui.toast (mkToast "Update error" (err_message error) destructive)))
    (Ui.setIsUpdating false).

End Component.

End ClaudeCodeConfiguration.

(* ================================================================= *)
(** ** The token meter: the component [StreamingTokenBudget] *)

Module StreamingTokenBudget.

(** [Math.min] on two numbers. *)
Definition Math_min (a b : float) : float :=
  if PrimFloat.is_nan a || PrimFloat.is_nan b then PrimFloat.nan
  else if PrimFloat.ltb a b then a
  else if PrimFloat.ltb b a then b
  else if PrimFloat.get_sign b then b else a.

Record TokenBudget : Type := mkTokenBudget {
  used : float;
  total : float
}.

Inductive Warning : Type :=
| LimitReached      (* the text "Context window limit reached" *)
| Approaching.      (* the text "Approaching context window limit" *)

(** What the rendered element depends on: the class chosen for each
    coloured part, the width of the bar in percent, the session label and
    the warning line.  The formatted numbers are left out. *)
Record View : Type := mkView {
  activityClass : string;
  sessionLabel : option string;
  zapClass : string;
  counterClass : string;
  barClass : string;
  barWidth : float;
  percentClass : string;
  warning : option Warning
}.

Definition percentage (tokenBudget : TokenBudget) : float :=
  PrimFloat.mul (PrimFloat.div (used tokenBudget) (total tokenBudget))
                100%float.

Definition isNearLimit (tokenBudget : TokenBudget) : bool :=
  PrimFloat.ltb 80%float (percentage tokenBudget).

Definition isAtLimit (tokenBudget : TokenBudget) : bool :=
  PrimFloat.ltb 95%float (percentage tokenBudget).

(** The component; [None] is the [null] it returns. *)
Definition render (sessionId : option string)
  (tokenBudget : option TokenBudget) (isStreaming : bool) : option View :=
  match tokenBudget with
  | Some tb =>
      if negb isStreaming then None
      else
        let near := isNearLimit tb in
        let atLimit := isAtLimit tb in
        let pick (red yellow other : string) : string :=
          if atLimit then red else if near then yellow else other in
        Some (mkView
          (pick "text-red-500" "text-yellow-500" "text-blue-500")
          (match sessionId with
           | Some sid =>
               if JsString.truthy sid
               then Some ("Session: " ++ String.substring 0 8 sid ++ "...")%string
               else None
           | None => None
           end)
          (pick "text-red-500" "text-yellow-500" "text-muted-foreground")
          (pick "text-red-600 dark:text-red-400"
                "text-yellow-600 dark:text-yellow-400" "text-foreground")
          (pick "bg-red-500" "bg-yellow-500" "bg-blue-500")
          (Math_min (percentage tb) 100%float)
          (pick "text-red-600 dark:text-red-400"
                "text-yellow-600 dark:text-yellow-400" "text-muted-foreground")
          (if near then Some (if atLimit then LimitReached else Approaching)
           else None))
  | None => None
  end.

End StreamingTokenBudget.

(* ================================================================= *)
(** ** Vocabulary for the statements *)

(** [m'] is [m] after the queries [evs] (newest first); the manual path is
    untouched. *)
Definition extends (m : Machine) (evs : list Effect) : Machine :=
  mkMachine (manualClaudeCodePath m) (evs ++ trace m).

(** Queries that belong to detection: existence tests and the
    [which claude] probe. *)
Definition detection_effect (e : Effect) : Prop :=
  match e with
  | FsExists _ => True
  | Exec cmd => cmd = "which claude"
  | _ => False
  end.

(** Queries that read directory listings, file kinds or file contents. *)
Definition is_scan (e : Effect) : bool :=
  match e with
  | FsReaddir _ | FsStat _ | FsReadFile _ => true
  | _ => false
  end.

(** The fallback probe yields nothing: the command fails, prints nothing,
    or prints a path that does not exist. *)
Definition which_fails (H : Host) : Prop :=
  match host_execSync H "which claude" with
  | Thrown _ => True
  | Returned out =>
      JsString.truthy (JsString.trim out) = false
      \/ host_existsSync H (JsString.trim out) = false
  end.

(** The value of detection as a function of the host and the manual path:
    what the [which claude] probe finds, what the platform branch finds,
    and what [detectClaudeCodePath] returns. *)
Definition probed (H : Host) : option string :=
  match host_execSync H "which claude" with
  | Returned out =>
      let whichResult := JsString.trim out in
      if JsString.truthy whichResult && host_existsSync H whichResult
      then Some whichResult else None
  | Thrown _ => None
  end.

Definition autoDetected (H : Host) : option string :=
  match platform H with
  | win32 => None
  | currentPlatform =>
      match find (host_existsSync H) (CLAUDE_CODE_PATHS H currentPlatform) with
      | Some path => Some path
      | None => probed H
      end
  end.

Definition detected (H : Host) (manual : option string) : option string :=
  match manual with
  | Some p =>
      if JsString.truthy p && host_existsSync H p then Some p
      else autoDetected H
  | None => autoDetected H
  end.

(** The address normalisation in the words of the specification: a slash
    at the end is removed, then [/v1] is appended unless the address ends
    with it. *)
Definition spec_normalize (address : string) : string :=
  let stripped :=
    if JsString.endsWith address "/"
    then String.substring 0 (String.length address - 1) address
    else address in
  if JsString.endsWith stripped "/v1" then stripped
  else (stripped ++ "/v1")%string.

(** What a directory listing comes to once failures are swallowed: the
    entries of [dir] whose kind can be read and is a directory; nothing
    when [dir] does not exist or cannot be listed. *)
Definition keeps (H : Host) (dir item : string) : bool :=
  match host_isDirectory H (join H [dir; item]) with
  | Returned b => b
  | Thrown _ => false
  end.

Definition listed (H : Host) (dir : string) : list string :=
  if host_existsSync H dir then
    match host_readdirSync H dir with
    | Returned items => filter (keeps H dir) items
    | Thrown _ => []
    end
  else [].

(** The parsed settings file, [JNull] when it is missing, unreadable or
    not JSON. *)
Definition settings_of (H : Host) : json :=
  let settingsPath := join H [homedir H; ".claude"; "settings.json"] in
  if host_existsSync H settingsPath then
    match host_readFileSync H settingsPath with
    | Returned text =>
        match JSON_parse H text with
        | Returned v => v
        | Thrown _ => JNull
        end
    | Thrown _ => JNull
    end
  else JNull.

Definition claudeDir_of (H : Host) : string := join H [homedir H; ".claude"].

(** The groups as the scan fills them on a host whose ~/.claude exists. *)
Definition scanned (H : Host) : ClaudeCodeCapabilities :=
  let settings := settings_of H in
  mkCapabilities
    (if Json.truthy settings then mcpServers_of_settings settings else [])
    []
    (map JStr (listed H (join H [claudeDir_of H; "plugins"])))
    (map JStr (listed H (join H [claudeDir_of H; "agents"])))
    []
    (if Json.truthy settings then models_of_settings settings else []).

(** A group source that cannot be read. *)
Definition unreadable_dir (H : Host) (dir : string) : Prop :=
  exists e, host_readdirSync H dir = Thrown e.

Definition unreadable_settings (H : Host) : Prop :=
  exists e,
    host_readFileSync H (join H [homedir H; ".claude"; "settings.json"])
    = Thrown e.

Ltac run :=
  unfold result, after, bind, ret, throw, try_catch, query, readManual,
    existsSync, execSync, readdirSync, statSync_isDirectory, readFileSync,
    record, extends in *; simpl in *.


(* ================================================================= *)
(** ** Concrete hosts *)

Module Examples.

(** Segments glued with a slash; enough for the absolute paths below. *)
Definition posix_join (segments : list string) : string :=
  String.concat "/" segments.

Definition command_failed (cmd : string) : JsError :=
  mkError "Error" ("Command failed: " ++ cmd).
Definition ENOENT (p : string) : JsError :=
  mkError "Error" ("ENOENT: no such file or directory, open '" ++ p ++ "'").
Definition EACCES (p : string) : JsError :=
  mkError "Error" ("EACCES: permission denied, scandir '" ++ p ++ "'").
Definition bad_json : JsError :=
  mkError "SyntaxError" "Unexpected end of JSON input".

Definition among (l : list string) (p : string) : bool :=
  existsb (String.eqb p) l.

(** A Linux machine without Claude Code and without npm. *)
Definition bare : Host :=
  mkHost linux "/home/u" posix_join
    (fun _ => false)
    (fun cmd => Thrown (command_failed cmd))
    (fun p => Thrown (ENOENT p))
    (fun p => Thrown (ENOENT p))
    (fun p => Thrown (ENOENT p))
    (fun _ => Thrown bad_json)
    None.

(** Claude Code at /usr/local/bin/claude, nothing else. *)
Definition usr_local : Host :=
  mkHost linux "/home/u" posix_join
    (among ["/usr/local/bin/claude"])
    (fun cmd => Thrown (command_failed cmd))
    (fun p => Thrown (ENOENT p))
    (fun p => Thrown (ENOENT p))
    (fun p => Thrown (ENOENT p))
    (fun _ => Thrown bad_json)
    None.

(** npm refuses to write into the global prefix. *)
Definition npm_denied : Host :=
  mkHost linux "/home/u" posix_join
    (fun _ => false)
    (fun cmd =>
       Thrown (mkError "Error"
         ("Command failed: " ++ cmd
          ++ " npm ERR! Error: EACCES: permission denied, mkdir"
          ++ " '/usr/local/lib/node_modules'")))
    (fun p => Thrown (ENOENT p))
    (fun p => Thrown (ENOENT p))
    (fun p => Thrown (ENOENT p))
    (fun _ => Thrown bad_json)
    None.

Definition settings_text : string :=
  "{" ++ JsString.dquote ++ "models" ++ JsString.dquote ++ ":["
      ++ JsString.dquote ++ "opus" ++ JsString.dquote ++ "],"
      ++ JsString.dquote ++ "mcpServers" ++ JsString.dquote ++ ":{"
      ++ JsString.dquote ++ "github" ++ JsString.dquote ++ ":{}}}".

Definition settings_value : json :=
  JObj [ ("models", JArr [JStr "opus"]);
         ("mcpServers", JObj [("github", JObj [])]) ].

(** Claude Code installed, with a ~/.claude tree whose agents directory
    cannot be listed, one plugin directory next to a plain file, and a
    settings file. *)
Definition agents_locked : Host :=
  mkHost linux "/home/u" posix_join
    (among [ "/usr/local/bin/claude"; "/home/u/.claude";
             "/home/u/.claude/agents"; "/home/u/.claude/plugins";
             "/home/u/.claude/settings.json" ])
    (fun cmd => Thrown (command_failed cmd))
    (fun p => if String.eqb p "/home/u/.claude/plugins"
              then Returned ["fmt"; "README.md"]
              else Thrown (EACCES p))
    (fun p => if String.eqb p "/home/u/.claude/plugins/fmt"
              then Returned true
              else if String.eqb p "/home/u/.claude/plugins/README.md"
              then Returned false
              else Thrown (ENOENT p))
    (fun p => if String.eqb p "/home/u/.claude/settings.json"
              then Returned settings_text
              else Thrown (ENOENT p))
    (fun text => if String.eqb text settings_text
                 then Returned settings_value
                 else Thrown bad_json)
    None.

Definition fresh : Machine := mkMachine None [].

(** Two conversations, a second start while the first streams, an abort
    and a natural end. *)
Definition busy_day : list SessionManager.Command :=
  [ SessionManager.Start 7 "claudecode" 100;
    SessionManager.Start 7 "claudecode" 101;
    SessionManager.Chunk 0 "Hel" None;
    SessionManager.Start 8 "ollama" 102;
    SessionManager.Chunk 0 "lo" (Some (SessionManager.mkUsage 12 5 4096));
    SessionManager.Abort 1;
    SessionManager.Start 8 "ollama" 103;
    SessionManager.StreamEnd 0;
    SessionManager.Start 7 "claudecode" 104 ].

End Examples.

(* ================================================================= *)
(** ** Further vocabulary *)

(** The candidates [firstExisting] tests: all up to and including the first
    that exists. *)
Fixpoint tried (H : Host) (paths : list string) : list string :=
  match paths with
  | [] => []
  | p :: rest => if host_existsSync H p then [p] else p :: tried H rest
  end.

(** The command line of the version query for a path. *)
Definition version_command (p : string) : string :=
  (JsString.dquote ++ p ++ JsString.dquote ++ " --version")%string.

(** The install command for a choice of [useSudo]. *)
Definition install_command (useSudo : bool) : string :=
  if useSudo then "sudo npm install -g @anthropic-ai/claude-code"
  else "npm install -g @anthropic-ai/claude-code".

Module MoreExamples.

(** A Windows machine on which every path exists and [which] answers. *)
Definition windows : Host :=
  mkHost win32 "C:\Users\u" Examples.posix_join
    (fun _ => true)
    (fun _ => Returned "C:\tools\claude.exe")
    (fun p => Thrown (Examples.ENOENT p))
    (fun p => Thrown (Examples.ENOENT p))
    (fun p => Thrown (Examples.ENOENT p))
    (fun _ => Thrown Examples.bad_json)
    None.

(** Claude Code at /usr/local/bin/claude answering its version query; npm
    and clu work. *)
Definition working : Host :=
  mkHost linux "/home/u" Examples.posix_join
    (Examples.among ["/usr/local/bin/claude"])
    (fun cmd =>
       if String.eqb cmd (version_command "/usr/local/bin/claude")
       then Returned "1.0.44 (Claude Code)  "
       else if String.eqb cmd "clu update" then Returned "up to date"
       else if String.eqb cmd (install_command false)
       then Returned "added 3 packages"
       else Thrown (Examples.command_failed cmd))
    (fun p => Thrown (Examples.ENOENT p))
    (fun p => Thrown (Examples.ENOENT p))
    (fun p => Thrown (Examples.ENOENT p))
    (fun _ => Thrown Examples.bad_json)
    None.

End MoreExamples.

(** The renderer with the main process replaced. *)
Definition with_main (w : Renderer) (m : Machine) : Renderer :=
  mkRenderer (claudeCodeModelsAtom w) (claudeCodeModelsLoadingAtom w)
    (claudeCodeModelsErrorAtom w) (claudeCodeInstallationAtom w)
    (claudeCodeCapabilitiesAtom w) (isSelecting w) (isInstalling w)
    (isUpdating w) (toasts w) m.

(** The IPC client whose methods are the handlers that
    [registerClaudeCodeHandlers] registers, run on host [H]; the dialog
    shown by the select-path handler settles with [dialog]. *)
Definition backed_by (H : Host) (dialog : Outcome OpenDialogReturnValue)
  : IpcClient :=
  mkIpcClient (fetchClaudeCodeModels H) (getClaudeCodeInstallationInfo H)
    (getClaudeCodeCapabilities H) (selectClaudeCodePath dialog)
    (handleInstallClaudeCode H) (handleUpdateClaudeCode H).

Ltac ui_run :=
  unfold Ui.bind, Ui.ret, Ui.try_catch, Ui.finally, Ui.invoke, Ui.update,
    Ui.setModels, Ui.setLoading, Ui.setError, Ui.setInstallation,
    Ui.setCapabilities, Ui.setIsSelecting, Ui.setIsInstalling,
    Ui.setIsUpdating, Ui.toast in *; simpl in *.

Module RendererExamples.

Definition idle (m : Machine) : Renderer :=
  mkRenderer [] false None None None false false false [] m.

End RendererExamples.

(** The numbers 95 and 80 as IEEE 754 binary64 values. *)
Definition sf95 : SpecFloat.spec_float :=
  SpecFloat.S754_finite false 6685030696878080 (-46).
Definition sf80 : SpecFloat.spec_float :=
  SpecFloat.S754_finite false 5629499534213120 (-46).

(* ================================================================= *)
(** ** How computations run *)

Lemma extends_nil m : extends m [] = m.
Proof. destruct m; reflexivity. Qed.

Lemma extends_extends m evs evs' :
  extends (extends m evs) evs' = extends m (evs' ++ evs).
Proof. unfold extends; simpl. now rewrite app_assoc. Qed.

Lemma record_extends m e evs :
  extends (record e m) evs = extends m (evs ++ [e]).
Proof. unfold extends, record; simpl. now rewrite <- app_assoc. Qed.

Lemma firstExisting_runs H paths m :
  exists evs,
    firstExisting H paths m
    = (Returned (find (host_existsSync H) paths), extends m evs)
    /\ Forall detection_effect evs.
Proof.
  revert m. induction paths as [|p rest IH]; intro m.
  - exists []. now rewrite extends_nil.
  - simpl. unfold bind at 1, existsSync at 1, query.
    destruct (host_existsSync H p) eqn:E.
    + exists [FsExists p]. split; [reflexivity|]. repeat constructor.
    + destruct (IH (record (FsExists p) m)) as [evs [-> Hev]].
      exists (evs ++ [FsExists p]). rewrite record_extends. split; [reflexivity|].
      apply Forall_app; split; [assumption| repeat constructor].
Qed.

Lemma whichProbe_runs H m :
  exists evs,
    whichProbe H m = (Returned (probed H), extends m evs)
    /\ Forall detection_effect evs.
Proof.
  unfold whichProbe, probed. run.
  destruct (host_execSync H "which claude") as [out|e].
  - destruct (JsString.truthy (JsString.trim out)) eqn:T; simpl.
    + exists [FsExists (JsString.trim out); Exec "which claude"].
      split; [|repeat constructor].
      now destruct (host_existsSync H (JsString.trim out)).
    + exists [Exec "which claude"]. split; [reflexivity|repeat constructor].
  - exists [Exec "which claude"]. split; [reflexivity|repeat constructor].
Qed.

(** The part of [detectClaudeCodePath] after the manual path was passed
    over: the platform test, the candidate loop and the probe. *)
Lemma autoDetect_runs H m :
  exists evs,
    (match platform H with
     | win32 => ret None
     | currentPlatform =>
         hit <- firstExisting H (CLAUDE_CODE_PATHS H currentPlatform) ;;
         match hit with
         | Some path => ret (Some path)
         | None => whichProbe H
         end
     end) m = (Returned (autoDetected H), extends m evs)
    /\ Forall detection_effect evs.
Proof.
  assert (G : forall paths,
    exists evs,
      (hit <- firstExisting H paths ;;
       match hit with
       | Some path => ret (Some path)
       | None => whichProbe H
       end) m
      = (Returned (match find (host_existsSync H) paths with
                   | Some path => Some path
                   | None => probed H
                   end), extends m evs)
      /\ Forall detection_effect evs).
  { intro paths. unfold bind.
    destruct (firstExisting_runs H paths m) as [evs [-> Hev]].
    destruct (find (host_existsSync H) paths) as [c|].
    - now exists evs.
    - destruct (whichProbe_runs H (extends m evs)) as [evs' [-> Hev']].
      exists (evs' ++ evs). rewrite extends_extends.
      split; [reflexivity | now apply Forall_app]. }
  unfold autoDetected. destruct (platform H); try apply G.
  exists []. rewrite extends_nil. now split.
Qed.

Lemma detect_runs H m :
  exists evs,
    detectClaudeCodePath H m
    = (Returned (detected H (manualClaudeCodePath m)), extends m evs)
    /\ Forall detection_effect evs.
Proof.
  unfold detectClaudeCodePath, detected.
  unfold bind at 1, readManual.
  destruct (manualClaudeCodePath m) as [mp|] eqn:Em.
  - destruct (JsString.truthy mp) eqn:T;
      [rewrite andb_true_l | rewrite andb_false_l].
    + unfold bind at 1, existsSync at 1, query.
      destruct (host_existsSync H mp) eqn:E.
      * exists [FsExists mp]. unfold ret, extends, record; simpl.
        split; [reflexivity | repeat constructor].
      * destruct (autoDetect_runs H (record (FsExists mp) m))
          as [evs [-> Hev]].
        exists (evs ++ [FsExists mp]). rewrite record_extends.
        split; [reflexivity|].
        apply Forall_app; split; [assumption|repeat constructor].
    + unfold bind at 1, ret at 1.
      destruct (autoDetect_runs H m) as [evs [-> Hev]]. now exists evs.
  - unfold bind at 1, ret at 1.
    destruct (autoDetect_runs H m) as [evs [-> Hev]]. now exists evs.
Qed.

(** Nothing is detected when no manual path is set, no candidate exists
    and the probe yields nothing. *)
Lemma detected_absent H :
  (forall c, In c (CLAUDE_CODE_PATHS H (platform H)) ->
             host_existsSync H c = false) ->
  which_fails H ->
  detected H None = None.
Proof.
  intros Hno Hw. unfold detected, autoDetected.
  assert (P : probed H = None).
  { unfold probed, which_fails in *.
    destruct (host_execSync H "which claude") as [out|e]; [|reflexivity].
    simpl. destruct Hw as [-> | ->];
      [reflexivity | now rewrite andb_false_r]. }
  assert (F : find (host_existsSync H) (CLAUDE_CODE_PATHS H (platform H))
              = None).
  { destruct (find _ _) as [c|] eqn:F; [|reflexivity].
    apply find_some in F. destruct F as [Hin Hex].
    rewrite (Hno c Hin) in Hex. discriminate. }
  destruct (platform H); try reflexivity; now rewrite F.
Qed.

(** Caught blocks whose handler returns a value never throw. *)
Lemma try_catch_returns {A} (c : M A) (h : JsError -> M A) m :
  (forall e m0, exists a, h e m0 = (Returned a, m0)) ->
  exists a m', try_catch c h m = (Returned a, m').
Proof.
  intro Hh. unfold try_catch. destruct (c m) as [[a|e] m'].
  - now exists a, m'.
  - destruct (Hh e m') as [a ->]. now exists a, m'.
Qed.

Lemma getClaudeCodeVersion_returns H m :
  exists v m', getClaudeCodeVersion H m = (Returned v, m').
Proof.
  unfold getClaudeCodeVersion, bind at 1.
  destruct (detect_runs H m) as [evs [-> _]].
  destruct (detected H (manualClaudeCodePath m)) as [p|];
    [|now exists None, (extends m evs)].
  destruct (JsString.truthy p); [|now exists None, (extends m evs)].
  apply try_catch_returns. intros e m0. now exists None.
Qed.

(* ================================================================= *)
(** ** The embedding at work *)

(** Candidates are tried in the order of the table; the first hit ends the
    search. *)
Example detect_walks_candidates :
  detectClaudeCodePath Examples.usr_local Examples.fresh
  = (Returned (Some "/usr/local/bin/claude"),
     mkMachine None [ FsExists "/usr/local/bin/claude";
                      FsExists "/home/u/.claude/bin/claude";
                      FsExists "/home/u/.claude/claude" ]).
Proof. reflexivity. Qed.

Example scan_with_locked_agents :
  result (detectClaudeCodeCapabilities Examples.agents_locked) Examples.fresh
  = Returned (Some (mkCapabilities [JStr "github"] [] [JStr "fmt"] [] []
                                   [JStr "opus"])).
Proof. reflexivity. Qed.

Example update_runs_clu_when_installed :
  updateClaudeCode Examples.usr_local Examples.fresh
  = (Returned (mkCommandResult false EmptyString
                 (Some "Command failed: clu update")),
     mkMachine None [ Exec "clu update";
                      FsExists "/usr/local/bin/claude";
                      FsExists "/home/u/.claude/bin/claude";
                      FsExists "/home/u/.claude/claude" ]).
Proof. reflexivity. Qed.

Example second_start_is_refused :
  let mgr := SessionManager.step (SessionManager.Start 7 "claudecode" 100)
               SessionManager.empty in
  fst (fst (SessionManager.start 7 "claudecode" 101 mgr))
  = inl SessionManager.ConversationBusy.
Proof. reflexivity. Qed.

Example busy_day_ends_with_two_streams :
  map SessionManager.conversationId
      (SessionManager.sessions
         (SessionManager.run Examples.busy_day SessionManager.empty))
  = [7; 8].
Proof. reflexivity. Qed.

(* ================================================================= *)
(** ** Detection *)

(** C2: [getClaudeCodeInstallationInfo] returns on every host and in every
    module state, it never throws; when no manual path is set, none of the
    platform's candidate paths exists and the [which claude] probe yields
    nothing, it returns [{installed: false, path: null, version: null}]. *)
Theorem detection_never_throws H m :
  (exists info m',
      getClaudeCodeInstallationInfo H m = (Returned info, m'))
  /\ (manualClaudeCodePath m = None ->
      (forall c, In c (CLAUDE_CODE_PATHS H (platform H)) ->
                 host_existsSync H c = false) ->
      which_fails H ->
      result (detectClaudeCodePath H) m = Returned None
      /\ result (getClaudeCodeInstallationInfo H) m
         = Returned (mkInstallationInfo false None None)).
Proof.
  unfold getClaudeCodeInstallationInfo, result.
  destruct (detect_runs H m) as [evs [E _]].
  split.
  - unfold bind at 1. rewrite E.
    destruct (detected H (manualClaudeCodePath m)) as [p|].
    + unfold bind at 1.
      destruct (getClaudeCodeVersion_returns H (extends m evs))
        as [v [m' ->]].
      now eexists _, m'.
    + now eexists _, _.
  - intros Hm Hc Hw. rewrite Hm, (detected_absent H Hc Hw) in E.
    unfold bind at 1. rewrite E. now split.
Qed.

Lemma detection_never_throws_witness :
  result (detectClaudeCodePath Examples.bare) Examples.fresh = Returned None
  /\ result (getClaudeCodeInstallationInfo Examples.bare) Examples.fresh
     = Returned (mkInstallationInfo false None None).
Proof.
  apply (proj2 (detection_never_throws Examples.bare Examples.fresh)).
  - reflexivity.
  - intros c _. reflexivity.
  - exact I.
Defined.

(** C3, as stated: once a manual path has been set, [detectClaudeCodePath]
    returns it whatever else the host holds.  That fails: a manual path
    that is not on disk is passed over and a candidate path is returned. *)
Lemma manual_path_not_always_returned :
  ~ (forall H m p,
        result (detectClaudeCodePath H)
               (after (setManualClaudeCodePath (Some p)) m)
        = Returned (Some p)).
Proof.
  intro A.
  specialize (A Examples.usr_local Examples.fresh "/opt/claude/bin/claude").
  vm_compute in A. discriminate A.
Qed.

(** C3, amended: once a non-empty manual path that exists on disk has been
    set, [detectClaudeCodePath] returns it after a single existence test:
    no candidate path is looked at and the probe is not run.  A manual path
    that is empty or not on disk is passed over: detection then returns
    what it returns with no manual path set. *)
Theorem manual_path_preferred H m p :
  let m1 := after (setManualClaudeCodePath (Some p)) m in
  (JsString.truthy p = true ->
   host_existsSync H p = true ->
   detectClaudeCodePath H m1 = (Returned (Some p), extends m1 [FsExists p]))
  /\ (JsString.truthy p && host_existsSync H p = false ->
      result (detectClaudeCodePath H) m1
      = result (detectClaudeCodePath H)
               (after (setManualClaudeCodePath None) m)).
Proof.
  intro m1. split.
  - intros T E. unfold detectClaudeCodePath. run. rewrite T, E. reflexivity.
  - intro F. unfold result.
    destruct (detect_runs H m1) as [evs [-> _]].
    destruct (detect_runs H (after (setManualClaudeCodePath None) m))
      as [evs' [-> _]].
    simpl. now rewrite F.
Qed.

Lemma manual_path_preferred_witness :
  detectClaudeCodePath Examples.usr_local
    (after (setManualClaudeCodePath (Some "/usr/local/bin/claude"))
           Examples.fresh)
  = (Returned (Some "/usr/local/bin/claude"),
     mkMachine (Some "/usr/local/bin/claude")
               [FsExists "/usr/local/bin/claude"])
  /\ result (detectClaudeCodePath Examples.usr_local)
        (after (setManualClaudeCodePath (Some "/opt/claude/bin/claude"))
               Examples.fresh)
     = result (detectClaudeCodePath Examples.usr_local)
              (after (setManualClaudeCodePath None) Examples.fresh).
Proof.
  split.
  - apply (proj1 (manual_path_preferred Examples.usr_local Examples.fresh
                    "/usr/local/bin/claude")); reflexivity.
  - apply (proj2 (manual_path_preferred Examples.usr_local Examples.fresh
                    "/opt/claude/bin/claude")); reflexivity.
Defined.

(* ================================================================= *)
(** ** Install and update *)

Lemma detection_effect_not_update evs :
  Forall detection_effect evs -> ~ In (Exec "clu update") evs.
Proof.
  intros F I. rewrite Forall_forall in F. specialize (F _ I).
  simpl in F. discriminate F.
Qed.

Lemma detection_effect_not_scan evs :
  Forall detection_effect evs -> Forall (fun e => is_scan e = false) evs.
Proof.
  apply Forall_impl. intros [] D; simpl in *; try reflexivity; contradiction.
Qed.

(** C4: when detection finds no path, [updateClaudeCode] has run detection
    and nothing else, and returns the failure
    [{success: false, output: '', error: 'Claude Code is not installed'}];
    [clu update] is not among the commands it ran. *)
Theorem update_fails_fast H m :
  result (detectClaudeCodePath H) m = Returned None ->
  updateClaudeCode H m
  = (Returned (mkCommandResult false EmptyString
                 (Some "Claude Code is not installed")),
     after (detectClaudeCodePath H) m)
  /\ exists evs,
       after (updateClaudeCode H) m = extends m evs
       /\ ~ In (Exec "clu update") evs.
Proof.
  unfold result, after. intro R.
  destruct (detect_runs H m) as [evs [E Hev]].
  rewrite E in R. simpl in R. injection R as R. rewrite R in E.
  assert (U : updateClaudeCode H m
              = (Returned (mkCommandResult false EmptyString
                             (Some "Claude Code is not installed")),
                 extends m evs)).
  { unfold updateClaudeCode, bind. now rewrite E. }
  rewrite U, E. split; [reflexivity|].
  exists evs. split; [reflexivity|]. now apply detection_effect_not_update.
Qed.

Lemma update_fails_fast_witness :
  result (updateClaudeCode Examples.bare) Examples.fresh
  = Returned (mkCommandResult false EmptyString
                (Some "Claude Code is not installed")).
Proof.
  unfold result.
  rewrite (proj1 (update_fails_fast Examples.bare Examples.fresh
                    eq_refl)).
  reflexivity.
Defined.

(** C5: when the install command fails, [installClaudeCode] returns
    [success = false]; if the error message contains [EACCES] or
    [permission denied] the error is the fixed text that asks to try again
    with sudo, otherwise it is the error message itself. *)
Theorem install_failure_classified H m useSudo e :
  host_execSync H
    (if useSudo : bool then "sudo npm install -g @anthropic-ai/claude-code"
     else "npm install -g @anthropic-ai/claude-code") = Thrown e ->
  let errorMessage := errorMessage_of e in
  let denied := JsString.includes errorMessage "EACCES"
                || JsString.includes errorMessage "permission denied" in
  (denied = true ->
   result (installClaudeCode H useSudo) m
   = Returned (mkCommandResult false EmptyString (Some PERMISSION_MESSAGE)))
  /\ (denied = false ->
      result (installClaudeCode H useSudo) m
      = Returned (mkCommandResult false EmptyString (Some errorMessage)))
  /\ JsString.includes PERMISSION_MESSAGE "sudo" = true.
Proof.
  intros E errorMessage denied. unfold installClaudeCode. run.
  rewrite E. fold errorMessage. fold denied.
  repeat split; try (intros ->; reflexivity).
Qed.

Lemma install_failure_classified_witness :
  result (installClaudeCode Examples.npm_denied false) Examples.fresh
  = Returned (mkCommandResult false EmptyString (Some PERMISSION_MESSAGE))
  /\ result (installClaudeCode Examples.bare true) Examples.fresh
     = Returned (mkCommandResult false EmptyString
          (Some "Command failed: sudo npm install -g @anthropic-ai/claude-code")).
Proof.
  split.
  - apply (proj1 (install_failure_classified Examples.npm_denied
                    Examples.fresh false _ eq_refl)).
    reflexivity.
  - apply (proj1 (proj2 (install_failure_classified Examples.bare
                           Examples.fresh true _ eq_refl))).
    reflexivity.
Defined.

(* ================================================================= *)
(** ** Capabilities *)

Lemma filterDirectories_runs H dir items m :
  exists evs,
    filterDirectories H dir items m
    = (Returned (filter (keeps H dir) items), extends m evs).
Proof.
  revert m. induction items as [|item rest IH]; intro m.
  - exists []. now rewrite extends_nil.
  - simpl. unfold bind at 1, try_catch, statSync_isDirectory, query.
    unfold keeps at 1.
    destruct (host_isDirectory H (join H [dir; item])) as [b|e];
      unfold bind, ret;
      destruct (IH (record (FsStat (join H [dir; item])) m)) as [evs ->];
      exists (evs ++ [FsStat (join H [dir; item])]);
      now rewrite record_extends.
Qed.

Lemma listDirectories_runs H dir m :
  exists evs,
    listDirectories H dir m = (Returned (listed H dir), extends m evs).
Proof.
  unfold listDirectories, listed, try_catch, bind at 1, existsSync, query.
  destruct (host_existsSync H dir); simpl.
  - unfold bind, readdirSync, query.
    destruct (host_readdirSync H dir) as [items|e].
    + destruct (filterDirectories_runs H dir items
                  (record (FsReaddir dir) (record (FsExists dir) m)))
        as [evs ->].
      exists (evs ++ [FsReaddir dir; FsExists dir]).
      now rewrite !record_extends, <- app_assoc.
    + now exists [FsReaddir dir; FsExists dir].
  - now exists [FsExists dir].
Qed.

Lemma readClaudeCodeSettings_runs H m :
  exists evs,
    readClaudeCodeSettings H m = (Returned (settings_of H), extends m evs).
Proof.
  unfold readClaudeCodeSettings, settings_of.
  set (settingsPath := join H [homedir H; ".claude"; "settings.json"]).
  unfold try_catch, bind at 1, existsSync, query.
  destruct (host_existsSync H settingsPath); simpl.
  - unfold bind, readFileSync, query.
    destruct (host_readFileSync H settingsPath) as [text|e].
    + exists [FsReadFile settingsPath; FsExists settingsPath].
      now destruct (JSON_parse H text).
    + now exists [FsReadFile settingsPath; FsExists settingsPath].
  - now exists [FsExists settingsPath].
Qed.

Lemma optional_listing_runs H dir m :
  exists evs,
    (haveDir <- existsSync H dir ;;
     (if haveDir then listDirectories H dir else ret [])) m
    = (Returned (listed H dir), extends m evs).
Proof.
  unfold bind, existsSync, query.
  destruct (host_existsSync H dir) eqn:E.
  - destruct (listDirectories_runs H dir (record (FsExists dir) m))
      as [evs ->].
    exists (evs ++ [FsExists dir]). now rewrite record_extends.
  - exists [FsExists dir]. unfold ret, listed. now rewrite E.
Qed.

Lemma detectClaudeCodeCapabilities_runs H m :
  exists p evs m',
    detectClaudeCodePath H m = (Returned p, extends m evs)
    /\ Forall detection_effect evs
    /\ detectClaudeCodeCapabilities H m
       = (Returned (if truthy_path p && host_existsSync H (claudeDir_of H)
                    then Some (scanned H) else None), m')
    /\ (truthy_path p = false -> m' = extends m evs).
Proof.
  destruct (detect_runs H m) as [evs [E Hev]].
  exists (detected H (manualClaudeCodePath m)), evs.
  unfold detectClaudeCodeCapabilities, bind at 1. rewrite E.
  set (p := detected H (manualClaudeCodePath m)).
  destruct (truthy_path p); simpl.
  2:{ exists (extends m evs). repeat split; assumption. }
  fold (claudeDir_of H).
  unfold try_catch, bind at 1, existsSync at 1, query.
  destruct (host_existsSync H (claudeDir_of H)); simpl.
  2:{ eexists. repeat split; try assumption. discriminate. }
  set (m1 := record _ _).
  pose proof (optional_listing_runs H (join H [claudeDir_of H; "agents"]) m1)
    as [ea Ea].
  unfold bind at 1 2. unfold bind at 1 in Ea.
  destruct (existsSync H (join H [claudeDir_of H; "agents"]) m1)
    as [[ha|?] m2]; [|destruct ea; discriminate].
  rewrite Ea.
  pose proof (optional_listing_runs H (join H [claudeDir_of H; "plugins"])
                (extends m1 ea)) as [ep Ep].
  unfold bind at 1 2. unfold bind at 1 in Ep.
  destruct (existsSync H (join H [claudeDir_of H; "plugins"]) (extends m1 ea))
    as [[hp|?] m3]; [|destruct ep; discriminate].
  rewrite Ep.
  unfold bind at 1.
  destruct (readClaudeCodeSettings_runs H (extends (extends m1 ea) ep))
    as [es ->].
  eexists. repeat split; try assumption. discriminate.
Qed.

(** C6: when detection finds no path, [detectClaudeCodeCapabilities]
    returns [null] having run detection and nothing else: no directory is
    listed, no file kind is queried and no file is read. *)
Theorem capabilities_none_when_absent H m :
  result (detectClaudeCodePath H) m = Returned None ->
  detectClaudeCodeCapabilities H m
  = (Returned None, after (detectClaudeCodePath H) m)
  /\ exists evs,
       after (detectClaudeCodeCapabilities H) m = extends m evs
       /\ Forall (fun e => is_scan e = false) evs.
Proof.
  unfold result, after. intro R.
  destruct (detectClaudeCodeCapabilities_runs H m)
    as [p [evs [m' [E [Hev [C Hm]]]]]].
  rewrite E in R. simpl in R. injection R as ->.
  rewrite (Hm eq_refl) in C. simpl in C. rewrite C, E.
  split; [reflexivity|].
  exists evs. split; [reflexivity|]. now apply detection_effect_not_scan.
Qed.

Lemma capabilities_none_when_absent_witness :
  detectClaudeCodeCapabilities Examples.bare Examples.fresh
  = (Returned None, after (detectClaudeCodePath Examples.bare) Examples.fresh).
Proof.
  apply (proj1 (capabilities_none_when_absent Examples.bare Examples.fresh
                  eq_refl)).
Defined.

(** C7: on a host where detection finds a path and ~/.claude exists, the
    scan returns a summary whatever cannot be read.  If the agents
    directory cannot be listed, [agents] is empty and the other groups are
    what their own sources give; likewise for the plugins directory; if
    settings.json cannot be read, [models] and [mcpServers] are empty and
    the directory groups are what their directories give. *)
Theorem capability_scan_tolerates H m p :
  result (detectClaudeCodePath H) m = Returned (Some p) ->
  JsString.truthy p = true ->
  host_existsSync H (claudeDir_of H) = true ->
  let agentsDir := join H [claudeDir_of H; "agents"] in
  let pluginsDir := join H [claudeDir_of H; "plugins"] in
  exists caps,
    result (detectClaudeCodeCapabilities H) m = Returned (Some caps)
    /\ (unreadable_dir H agentsDir ->
        agents caps = []
        /\ plugins caps = map JStr (listed H pluginsDir)
        /\ models caps = models (scanned H)
        /\ mcpServers caps = mcpServers (scanned H))
    /\ (unreadable_dir H pluginsDir ->
        plugins caps = []
        /\ agents caps = map JStr (listed H agentsDir)
        /\ models caps = models (scanned H)
        /\ mcpServers caps = mcpServers (scanned H))
    /\ (unreadable_settings H ->
        models caps = [] /\ mcpServers caps = []
        /\ agents caps = map JStr (listed H agentsDir)
        /\ plugins caps = map JStr (listed H pluginsDir)).
Proof.
  intros R T D agentsDir pluginsDir. unfold result in *.
  destruct (detectClaudeCodeCapabilities_runs H m)
    as [q [evs [m' [E [_ [C _]]]]]].
  rewrite E in R. simpl in R. injection R as ->.
  simpl in C. rewrite T, D in C. simpl in C.
  exists (scanned H). rewrite C. split; [reflexivity|].
  assert (L : forall dir, unreadable_dir H dir -> listed H dir = []).
  { intros dir [e Ee]. unfold listed. rewrite Ee.
    destruct (host_existsSync H dir); reflexivity. }
  assert (S : unreadable_settings H -> settings_of H = JNull).
  { intros [e Ee]. unfold settings_of. rewrite Ee.
    destruct (host_existsSync H
                (join H [homedir H; ".claude"; "settings.json"]));
      reflexivity. }
  split; [|split].
  - intro U. simpl. fold agentsDir. now rewrite (L _ U).
  - intro U. simpl. fold pluginsDir. now rewrite (L _ U).
  - intro U. simpl. now rewrite (S U).
Qed.

Lemma capability_scan_tolerates_witness :
  exists caps,
    result (detectClaudeCodeCapabilities Examples.agents_locked)
           Examples.fresh = Returned (Some caps)
    /\ agents caps = []
    /\ plugins caps = [JStr "fmt"]
    /\ models caps = [JStr "opus"]
    /\ mcpServers caps = [JStr "github"].
Proof.
  destruct (capability_scan_tolerates Examples.agents_locked Examples.fresh
              "/usr/local/bin/claude" eq_refl eq_refl eq_refl)
    as [caps [R [A _]]].
  exists caps. split; [exact R|].
  destruct A as [Ha [Hp [Hm Hs]]].
  - now exists (Examples.EACCES "/home/u/.claude/agents").
  - rewrite Ha, Hp, Hm, Hs. repeat split.
Defined.

(** C10: every summary returned by [detectClaudeCodeCapabilities] has
    empty [skills] and [subAgents]. *)
Theorem skills_and_subAgents_empty H m caps :
  result (detectClaudeCodeCapabilities H) m = Returned (Some caps) ->
  skills caps = [] /\ subAgents caps = [].
Proof.
  unfold result. intro R.
  destruct (detectClaudeCodeCapabilities_runs H m)
    as [p [evs [m' [_ [_ [C _]]]]]].
  rewrite C in R. simpl in R.
  destruct (truthy_path p && host_existsSync H (claudeDir_of H));
    [|discriminate].
  injection R as <-. now split.
Qed.

Lemma skills_and_subAgents_empty_witness :
  skills (scanned Examples.agents_locked) = []
  /\ subAgents (scanned Examples.agents_locked) = [].
Proof.
  apply (skills_and_subAgents_empty Examples.agents_locked Examples.fresh).
  reflexivity.
Defined.

(* ================================================================= *)
(** ** Model list *)

(** C9: [isClaudeCodeInstalled] always returns; when it returns [false],
    [fetchClaudeCodeModels] throws; when it returns [true], the result is
    the list of the four models claude-sonnet-4.5, claude-sonnet-4,
    claude-opus-4 and claude-haiku-4, each with provider claudecode,
    whatever else the host holds. *)
Theorem fetchClaudeCodeModels_fixed H m :
  (exists b, result (isClaudeCodeInstalled H) m = Returned b)
  /\ (result (isClaudeCodeInstalled H) m = Returned false ->
      result (fetchClaudeCodeModels H) m = Thrown NOT_INSTALLED_ERROR)
  /\ (result (isClaudeCodeInstalled H) m = Returned true ->
      exists models,
        result (fetchClaudeCodeModels H) m = Returned models
        /\ map modelName models
           = [ "claude-sonnet-4.5"; "claude-sonnet-4";
               "claude-opus-4"; "claude-haiku-4" ]
        /\ map displayName models
           = [ "Claude Sonnet 4.5"; "Claude Sonnet 4";
               "Claude Opus 4"; "Claude Haiku 4" ]
        /\ Forall (fun model => provider model = "claudecode") models).
Proof.
  assert (I : exists b m', isClaudeCodeInstalled H m = (Returned b, m')).
  { unfold isClaudeCodeInstalled, bind.
    destruct (detect_runs H m) as [evs [-> _]]. now eexists _, _. }
  destruct I as [b [m' I]].
  unfold result, fetchClaudeCodeModels, bind. rewrite I. simpl.
  split; [now exists b|].
  split; intro R; injection R as ->; simpl; [reflexivity|].
  eexists. split; [reflexivity|]. repeat split. repeat constructor.
Qed.

Lemma fetchClaudeCodeModels_fixed_witness :
  result (fetchClaudeCodeModels Examples.bare) Examples.fresh
  = Thrown NOT_INSTALLED_ERROR
  /\ exists models,
       result (fetchClaudeCodeModels Examples.usr_local) Examples.fresh
       = Returned models
       /\ List.length models = 4.
Proof.
  split.
  - apply (proj1 (proj2 (fetchClaudeCodeModels_fixed Examples.bare
                           Examples.fresh))).
    reflexivity.
  - destruct (proj2 (proj2 (fetchClaudeCodeModels_fixed Examples.usr_local
                               Examples.fresh)) eq_refl)
      as [models [R [N _]]].
    exists models. split; [exact R|].
    apply (f_equal (@List.length string)) in N.
    rewrite length_map in N. exact N.
Defined.

(* ================================================================= *)
(** ** Transport adapters *)

Lemma substring_all s : String.substring 0 (String.length s) s = s.
Proof. induction s as [|c r IH]; simpl; [reflexivity | now rewrite IH]. Qed.

Lemma substring_skip a b n :
  String.substring (String.length a) n (a ++ b)%string
  = String.substring 0 n b.
Proof. induction a as [|c r IH]; simpl; [reflexivity | exact IH]. Qed.

Lemma length_append a b :
  String.length (a ++ b)%string = String.length a + String.length b.
Proof. induction a as [|c r IH]; simpl; [reflexivity | now rewrite IH]. Qed.

Lemma endsWith_append a suf : JsString.endsWith (a ++ suf)%string suf = true.
Proof.
  unfold JsString.endsWith. rewrite length_append.
  replace (String.length a + String.length suf - String.length suf)
    with (String.length a) by lia.
  rewrite substring_skip, substring_all, String.eqb_refl, andb_true_r.
  apply Nat.leb_le. lia.
Qed.

Lemma dropFinalSlash_spec s :
  JsString.dropFinalSlash s
  = if JsString.endsWith s "/"
    then String.substring 0 (String.length s - 1) s
    else s.
Proof.
  induction s as [|c r IH]; [reflexivity|].
  destruct r as [|c' r'].
  - unfold JsString.endsWith. simpl.
    destruct (Ascii.eqb c "/"); reflexivity.
  - change (JsString.dropFinalSlash (String c (String c' r')))
      with (String c (JsString.dropFinalSlash (String c' r'))).
    rewrite IH. unfold JsString.endsWith.
    change (String.length (String c (String c' r')))
      with (S (S (String.length r'))).
    change (String.length (String c' r')) with (S (String.length r')).
    change (String.length "/") with 1.
    replace (S (S (String.length r')) - 1) with (S (String.length r')) by lia.
    replace (S (String.length r') - 1) with (String.length r') by lia.
    change (String.substring (S (String.length r')) 1
              (String c (String c' r')))
      with (String.substring (String.length r') 1 (String c' r')).
    change (Nat.leb 1 (S (S (String.length r')))) with true.
    change (Nat.leb 1 (S (String.length r'))) with true.
    destruct (true && String.eqb
                (String.substring (String.length r') 1 (String c' r')) "/");
      reflexivity.
Qed.

(** C8: both adapters hand to the transport the base URL obtained from the
    configured [baseURL] when there is one, else from the provider's
    default, with a final slash removed and [/v1] appended unless already
    there; that URL always ends with [/v1]. *)
Theorem provider_baseURL_normalized H options :
  let resolvedClaude :=
    match options with
    | Some (mkOptions (Some override) _) => override
    | _ => getClaudeCodeBaseUrl H
    end in
  let resolvedOllama :=
    match options with
    | Some (mkOptions (Some override) _) => override
    | _ => "http://localhost:11434"
    end in
  settings_baseURL (createClaudeCodeProvider H options)
  = spec_normalize resolvedClaude
  /\ settings_baseURL (createOllamaProvider options)
     = spec_normalize resolvedOllama
  /\ JsString.endsWith
       (settings_baseURL (createClaudeCodeProvider H options)) "/v1" = true
  /\ JsString.endsWith
       (settings_baseURL (createOllamaProvider options)) "/v1" = true.
Proof.
  assert (N : forall address,
    (let base := withoutTrailingSlash address in
     if JsString.endsWith base "/v1" then base else (base ++ "/v1")%string)
    = spec_normalize address).
  { intro address. unfold withoutTrailingSlash, spec_normalize.
    now rewrite dropFinalSlash_spec. }
  assert (E : forall address,
    JsString.endsWith (spec_normalize address) "/v1" = true).
  { intro address. unfold spec_normalize.
    set (stripped := if JsString.endsWith address "/" then _ else _).
    destruct (JsString.endsWith stripped "/v1") eqn:V;
      [exact V | apply endsWith_append]. }
  assert (RC : baseURL_or options (getClaudeCodeBaseUrl H)
               = match options with
                 | Some (mkOptions (Some override) _) => override
                 | _ => getClaudeCodeBaseUrl H
                 end).
  { destruct options as [[[u|] h]|]; reflexivity. }
  assert (RO : baseURL_or options "http://localhost:11434"
               = match options with
                 | Some (mkOptions (Some override) _) => override
                 | _ => "http://localhost:11434"
                 end).
  { destruct options as [[[u|] h]|]; reflexivity. }
  intros resolvedClaude resolvedOllama.
  unfold createClaudeCodeProvider, createOllamaProvider; simpl.
  rewrite !N, RC, RO. fold resolvedClaude resolvedOllama.
  repeat split; apply E.
Qed.

(** The default addresses and a configured one, normalised. *)
Example provider_baseURL_examples :
  settings_baseURL (createOllamaProvider None) = "http://localhost:11434/v1"
  /\ settings_baseURL (createClaudeCodeProvider Examples.bare None)
     = "http://localhost:3000/v1"
  /\ settings_baseURL
       (createOllamaProvider
          (Some (mkOptions (Some "http://10.0.0.2:8080/v1/") None)))
     = "http://10.0.0.2:8080/v1".
Proof. repeat split. Qed.

(* ================================================================= *)
(** ** Session table *)

Module SessionFacts.
Import SessionManager.

Lemma filter_none {A} (f : A -> bool) l :
  existsb f l = false -> filter f l = [].
Proof.
  induction l as [|x r IH]; simpl; [reflexivity|].
  destruct (f x); simpl; [discriminate | exact IH].
Qed.

Lemma filter_filter_length {A} (f g : A -> bool) l :
  List.length (filter f (filter g l)) <= List.length (filter f l).
Proof.
  induction l as [|x r IH]; simpl; [lia|].
  destruct (g x), (f x) eqn:F; simpl; rewrite ?F; simpl; lia.
Qed.

Lemma filter_map_length {A} (f : A -> bool) (g : A -> A) l :
  (forall x, f (g x) = f x) ->
  List.length (filter f (map g l)) = List.length (filter f l).
Proof.
  intro P. induction l as [|x r IH]; simpl; [reflexivity|].
  rewrite P. destruct (f x); simpl; now rewrite IH.
Qed.

Lemma add_usage_active_for c u s :
  active_for c (add_usage u s) = active_for c s.
Proof. destruct u; reflexivity. Qed.

Lemma deregister_count c sid mgr :
  active_count c (deregister sid mgr) <= active_count c mgr.
Proof. apply filter_filter_length. Qed.

Lemma step_preserves c mgr : exclusive mgr -> exclusive (step c mgr).
Proof.
  intros I k. specialize (I k).
  destruct c as [conv prov now | sid delta u | sid | sid | sid reason];
    simpl.
  - unfold start.
    destruct (existsb (active_for conv) (sessions mgr)) eqn:B;
      simpl; [exact I|].
    unfold active_count in *. simpl. unfold active_for at 1. simpl.
    destruct (Nat.eqb conv k) eqn:K; simpl; [|exact I].
    apply Nat.eqb_eq in K. subst k.
    rewrite (filter_none _ _ B). simpl. lia.
  - unfold chunk. destruct (lookup sid mgr); simpl; [|exact I].
    unfold active_count in *. simpl.
    rewrite filter_map_length; [exact I|].
    intro x. destruct (Nat.eqb (sessionId x) sid);
      [apply add_usage_active_for | reflexivity].
  - unfold finish. destruct (lookup sid mgr); simpl; [|exact I].
    pose proof (deregister_count k sid mgr). lia.
  - unfold abort. destruct (lookup sid mgr); simpl; [|exact I].
    pose proof (deregister_count k sid mgr). lia.
  - unfold fail. destruct (lookup sid mgr); simpl; [|exact I].
    pose proof (deregister_count k sid mgr). lia.
Qed.

(** C1: in every reachable state of the session manager and for every
    conversation there is at most one Active session of that
    conversation, and each operation (start, chunk, stream end, abort,
    transport error) keeps it so. *)
Theorem one_active_session_per_conversation :
  (forall c mgr, exclusive mgr -> exclusive (step c mgr))
  /\ (forall mgr, reachable mgr ->
        forall conversation, active_count conversation mgr <= 1).
Proof.
  split; [exact step_preserves|].
  intros mgr R. induction R as [|c mgr R IH].
  - intro k. unfold active_count. simpl. lia.
  - now apply step_preserves.
Qed.

Lemma run_reachable cs : forall mgr, reachable mgr -> reachable (run cs mgr).
Proof.
  induction cs as [|c r IH]; intros mgr R; simpl; [exact R|].
  apply IH. now constructor.
Qed.

Lemma one_active_session_per_conversation_witness :
  active_count 7 (run Examples.busy_day empty) <= 1
  /\ active_count 8 (run Examples.busy_day empty) <= 1.
Proof.
  split;
    apply (proj2 one_active_session_per_conversation
             (run Examples.busy_day empty) (run_reachable Examples.busy_day empty reach_empty)).
Defined.

End SessionFacts.

(* ================================================================= *)
(** ** More on detection *)

Lemma detected_exists H manual p :
  detected H manual = Some p -> host_existsSync H p = true.
Proof.
  assert (P : probed H = Some p -> host_existsSync H p = true).
  { unfold probed. destruct (host_execSync H "which claude") as [out|e];
      [|discriminate].
    simpl. destruct (JsString.truthy (JsString.trim out)); [|discriminate].
    simpl. destruct (host_existsSync H (JsString.trim out)) eqn:E;
      [|discriminate].
    intro Q. injection Q as <-. exact E. }
  assert (A : autoDetected H = Some p -> host_existsSync H p = true).
  { assert (G : forall paths,
      match find (host_existsSync H) paths with
      | Some path => Some path
      | None => probed H
      end = Some p -> host_existsSync H p = true).
    { intros paths. destruct (find (host_existsSync H) paths) as [c|] eqn:F;
        [|exact P].
      intro Q. injection Q as <-. now apply find_some in F. }
    unfold autoDetected. destruct (platform H); try apply G. discriminate. }
  unfold detected. destruct manual as [mp|]; [|exact A].
  destruct (JsString.truthy mp); simpl; [|exact A].
  destruct (host_existsSync H mp) eqn:E; [|exact A].
  intro Q. injection Q as <-. exact E.
Qed.

(** X1: whatever path [detectClaudeCodePath] returns, be it the manual
    path, a candidate or the answer of [which claude], [existsSync] holds
    of it on the host. *)
Theorem detected_path_exists H m p :
  result (detectClaudeCodePath H) m = Returned (Some p) ->
  host_existsSync H p = true.
Proof.
  unfold result. destruct (detect_runs H m) as [evs [-> _]]. simpl.
  intro Q. injection Q as Q. now apply detected_exists in Q.
Qed.

Lemma detected_path_exists_witness :
  host_existsSync Examples.usr_local "/usr/local/bin/claude" = true.
Proof.
  apply (detected_path_exists Examples.usr_local Examples.fresh).
  reflexivity.
Defined.

Lemma firstExisting_trace H paths m :
  firstExisting H paths m
  = (Returned (find (host_existsSync H) paths),
     extends m (rev (map FsExists (tried H paths)))).
Proof.
  revert m. induction paths as [|p rest IH]; intro m.
  - simpl. unfold ret. now rewrite extends_nil.
  - simpl. unfold bind at 1, existsSync at 1, query.
    destruct (host_existsSync H p) eqn:E; [reflexivity|].
    rewrite IH, record_extends. reflexivity.
Qed.

(** X2: with no manual path, on a platform other than win32, the first
    candidate of the table that exists is returned; the only queries made
    are the existence tests of the candidates up to that one, in table
    order, and [which claude] is not run. *)
Theorem first_candidate_wins H m c :
  manualClaudeCodePath m = None ->
  platform H <> win32 ->
  find (host_existsSync H) (CLAUDE_CODE_PATHS H (platform H)) = Some c ->
  let tests := map FsExists (tried H (CLAUDE_CODE_PATHS H (platform H))) in
  detectClaudeCodePath H m = (Returned (Some c), extends m (rev tests))
  /\ ~ In (Exec "which claude") tests.
Proof.
  intros Hm Hp F tests. split.
  - unfold detectClaudeCodePath, bind at 1, readManual. rewrite Hm.
    unfold bind at 1, ret at 1.
    destruct (platform H) eqn:P; try (now elim Hp);
      unfold bind; rewrite firstExisting_trace, F; reflexivity.
  - unfold tests. rewrite in_map_iff. intros [x [Q _]]. discriminate Q.
Qed.

Lemma first_candidate_wins_witness :
  detectClaudeCodePath Examples.usr_local Examples.fresh
  = (Returned (Some "/usr/local/bin/claude"),
     mkMachine None [ FsExists "/usr/local/bin/claude";
                      FsExists "/home/u/.claude/bin/claude";
                      FsExists "/home/u/.claude/claude" ]).
Proof.
  apply (proj1 (first_candidate_wins Examples.usr_local Examples.fresh
                  "/usr/local/bin/claude" eq_refl
                  ltac:(discriminate) eq_refl)).
Defined.

(** X3: on win32 nothing is looked for: without a manual path detection
    returns [null] with no query at all (the wsl.exe entry of the table is
    never tested), and with a manual path the result is that path or
    [null]. *)
Theorem win32_is_never_searched H m :
  platform H = win32 ->
  (manualClaudeCodePath m = None ->
   detectClaudeCodePath H m = (Returned None, m))
  /\ result (detectClaudeCodePath H) m
     = Returned (match manualClaudeCodePath m with
                 | Some p =>
                     if JsString.truthy p && host_existsSync H p
                     then Some p else None
                 | None => None
                 end).
Proof.
  intro P. split.
  - intro Hm. unfold detectClaudeCodePath, bind at 1, readManual.
    rewrite Hm. unfold bind, ret. rewrite P. reflexivity.
  - unfold result. destruct (detect_runs H m) as [evs [-> _]]. simpl.
    unfold detected, autoDetected. rewrite P. reflexivity.
Qed.

Lemma win32_is_never_searched_witness :
  detectClaudeCodePath MoreExamples.windows Examples.fresh
  = (Returned None, Examples.fresh).
Proof.
  apply (proj1 (win32_is_never_searched MoreExamples.windows Examples.fresh
                  eq_refl)).
  reflexivity.
Defined.

(** X4: detection only observes.  It leaves the manual path as it was, the
    queries it adds are existence tests and at most [which claude], and
    running it again right away gives the same answer. *)
Theorem detection_only_observes H m :
  let m' := after (detectClaudeCodePath H) m in
  manualClaudeCodePath m' = manualClaudeCodePath m
  /\ (exists evs, trace m' = evs ++ trace m /\ Forall detection_effect evs)
  /\ result (detectClaudeCodePath H) m' = result (detectClaudeCodePath H) m.
Proof.
  unfold after, result.
  destruct (detect_runs H m) as [evs [E Hev]]. rewrite E. simpl.
  split; [reflexivity|]. split; [now exists evs|].
  destruct (detect_runs H (extends m evs)) as [evs' [-> _]]. reflexivity.
Qed.

(* ================================================================= *)
(** ** Version and installation info *)

Lemma getClaudeCodeVersion_runs H m :
  exists evs,
    detectClaudeCodePath H m
    = (Returned (detected H (manualClaudeCodePath m)), extends m evs)
    /\ Forall detection_effect evs
    /\ getClaudeCodeVersion H m
       = match detected H (manualClaudeCodePath m) with
         | Some p =>
             if JsString.truthy p then
               (match host_execSync H (version_command p) with
                | Returned out => Returned (Some (JsString.trim out))
                | Thrown _ => Returned None
                end,
                extends m (Exec (version_command p) :: evs))
             else (Returned None, extends m evs)
         | None => (Returned None, extends m evs)
         end.
Proof.
  destruct (detect_runs H m) as [evs [E Hev]]. exists evs.
  split; [exact E|]. split; [exact Hev|].
  unfold getClaudeCodeVersion, bind at 1. rewrite E.
  destruct (detected H (manualClaudeCodePath m)) as [p|]; [|reflexivity].
  destruct (JsString.truthy p); [|reflexivity].
  unfold try_catch, bind, execSync, query, version_command.
  now destruct (host_execSync H _).
Qed.




(* ================================================================= *)
(** ** More on install and update *)

Lemma installClaudeCode_runs H m useSudo :
  installClaudeCode H useSudo m
  = (Returned
       (match host_execSync H (install_command useSudo) with
        | Returned out => mkCommandResult true (JsString.trim out) None
        | Thrown e =>
            if JsString.includes (errorMessage_of e) "EACCES"
               || JsString.includes (errorMessage_of e) "permission denied"
            then mkCommandResult false EmptyString (Some PERMISSION_MESSAGE)
            else mkCommandResult false EmptyString
                   (Some (errorMessage_of e))
        end),
     extends m [Exec (install_command useSudo)]).
Proof.
  unfold installClaudeCode, install_command. run.
  destruct (host_execSync H _) as [out|e]; [reflexivity|].
  now destruct (_ || _).
Qed.


Lemma includes_orb_false s a b :
  JsString.includes s a || JsString.includes s b = false ->
  JsString.includes s a = false.
Proof. now intros [Q _]%orb_false_elim. Qed.

(** X8: the error text returned by [installClaudeCode] never contains
    [EACCES]: a message that does is replaced by the fixed permission
    text. *)
Theorem install_error_never_mentions_EACCES H m useSudo r text :
  result (installClaudeCode H useSudo) m = Returned r ->
  error r = Some text ->
  JsString.includes text "EACCES" = false.
Proof.
  unfold result. rewrite installClaudeCode_runs. simpl.
  destruct (host_execSync H (install_command useSudo)) as [out|e].
  - intros [= <-]. discriminate.
  - destruct (_ || _) eqn:B; intros [= <-] [= <-]; [reflexivity|].
    now apply includes_orb_false in B.
Qed.

Lemma install_error_never_mentions_EACCES_witness :
  JsString.includes PERMISSION_MESSAGE "EACCES" = false.
Proof.
  apply (install_error_never_mentions_EACCES Examples.npm_denied
           Examples.fresh false
           (mkCommandResult false EmptyString (Some PERMISSION_MESSAGE)));
    reflexivity.
Defined.




(* ================================================================= *)
(** ** More on the capability scan *)

(** X10: [listDirectories] never throws.  It returns, in listing order,
    exactly the entries of the directory whose kind can be read and is a
    directory; an entry whose [statSync] fails is skipped, a directory that
    is missing or cannot be listed gives the empty list, and a missing one
    is not listed at all. *)
Theorem listDirectories_keeps_directories H m dir :
  (exists names evs,
     listDirectories H dir m = (Returned names, extends m evs)
     /\ (forall item,
           In item names <->
           host_existsSync H dir = true
           /\ (exists items,
                 host_readdirSync H dir = Returned items /\ In item items)
           /\ host_isDirectory H (join H [dir; item]) = Returned true))
  /\ (host_existsSync H dir = false ->
      listDirectories H dir m = (Returned [], extends m [FsExists dir])).
Proof.
  split.
  - destruct (listDirectories_runs H dir m) as [evs E].
    exists (listed H dir), evs. split; [exact E|].
    intro item. unfold listed.
    destruct (host_existsSync H dir).
    + destruct (host_readdirSync H dir) as [items|e].
      * rewrite filter_In. unfold keeps. split.
        -- intros [I K]. split; [reflexivity|]. split; [now exists items|].
           destruct (host_isDirectory H (join H [dir; item])) as [[]|];
             [reflexivity | discriminate | discriminate].
        -- intros [_ [[items' [[= <-] I]] K]]. split; [exact I|].
           now rewrite K.
      * split; [intros []|]. intros [_ [[items [Q _]] _]]. discriminate.
    + split; [intros []|]. intros [Q _]. discriminate.
  - intro N. unfold listDirectories, try_catch, bind, existsSync, query.
    now rewrite N.
Qed.

Lemma listDirectories_keeps_directories_witness :
  result (listDirectories Examples.agents_locked "/home/u/.claude/plugins")
         Examples.fresh = Returned ["fmt"]
  /\ listDirectories Examples.bare "/home/u/.claude/agents" Examples.fresh
     = (Returned [], mkMachine None [FsExists "/home/u/.claude/agents"]).
Proof.
  split; [reflexivity|].
  apply (proj2 (listDirectories_keeps_directories Examples.bare
                  Examples.fresh "/home/u/.claude/agents")).
  reflexivity.
Defined.

(** X11: [readClaudeCodeSettings] (and [getClaudeCodeSettings]) never
    throws: it returns what [JSON.parse] makes of ~/.claude/settings.json,
    and [null] when the file is missing, cannot be read or is not JSON; a
    missing file is not read. *)
Theorem settings_are_parsed_or_null H m :
  let settingsPath := join H [homedir H; ".claude"; "settings.json"] in
  (exists evs,
     getClaudeCodeSettings H m = (Returned (settings_of H), extends m evs))
  /\ (host_existsSync H settingsPath = false ->
      getClaudeCodeSettings H m
      = (Returned JNull, extends m [FsExists settingsPath]))
  /\ (forall text v,
        host_existsSync H settingsPath = true ->
        host_readFileSync H settingsPath = Returned text ->
        JSON_parse H text = Returned v ->
        result (getClaudeCodeSettings H) m = Returned v)
  /\ (forall text e,
        host_existsSync H settingsPath = true ->
        host_readFileSync H settingsPath = Returned text ->
        JSON_parse H text = Thrown e ->
        result (getClaudeCodeSettings H) m = Returned JNull).
Proof.
  intro settingsPath. unfold getClaudeCodeSettings, result.
  split; [apply readClaudeCodeSettings_runs|].
  unfold readClaudeCodeSettings. fold settingsPath.
  unfold try_catch, bind, existsSync, readFileSync, query, lift.
  split; [now intros -> |].
  split; intros text x -> -> ->; reflexivity.
Qed.

Lemma settings_are_parsed_or_null_witness :
  result (getClaudeCodeSettings Examples.agents_locked) Examples.fresh
  = Returned Examples.settings_value
  /\ getClaudeCodeSettings Examples.bare Examples.fresh
     = (Returned JNull,
        mkMachine None [FsExists "/home/u/.claude/settings.json"]).
Proof.
  split.
  - apply (proj1 (proj2 (proj2 (settings_are_parsed_or_null
                                  Examples.agents_locked Examples.fresh)))
             Examples.settings_text); reflexivity.
  - apply (proj1 (proj2 (settings_are_parsed_or_null Examples.bare
                           Examples.fresh))).
    reflexivity.
Defined.

(** X12: [detectClaudeCodeCapabilities] never throws, and it returns
    [null] exactly when detection gives no non-empty path or ~/.claude
    does not exist: a provider that is installed but has no ~/.claude gets
    [null], not an empty summary. *)
Theorem capabilities_null_iff H m :
  exists r,
    result (detectClaudeCodeCapabilities H) m = Returned r
    /\ (r = None <->
        truthy_path (detected H (manualClaudeCodePath m)) = false
        \/ host_existsSync H (claudeDir_of H) = false).
Proof.
  destruct (detectClaudeCodeCapabilities_runs H m)
    as [p [evs [m' [E [_ [C _]]]]]].
  destruct (detect_runs H m) as [evs' [E' _]].
  rewrite E' in E. injection E as <- _.
  unfold result. rewrite C. simpl. eexists. split; [reflexivity|].
  destruct (truthy_path _); destruct (host_existsSync H (claudeDir_of H));
    simpl; split; auto; try discriminate; intros [Q|Q]; discriminate.
Qed.

Lemma capabilities_null_iff_witness :
  result (detectClaudeCodeCapabilities Examples.usr_local) Examples.fresh
  = Returned None.
Proof.
  destruct (capabilities_null_iff Examples.usr_local Examples.fresh)
    as [r [R N]].
  rewrite R. f_equal. apply N. right. reflexivity.
Defined.

Lemma capabilities_some_scanned H m caps :
  result (detectClaudeCodeCapabilities H) m = Returned (Some caps) ->
  caps = scanned H.
Proof.
  unfold result.
  destruct (detectClaudeCodeCapabilities_runs H m)
    as [p [evs [m' [_ [_ [C _]]]]]].
  rewrite C. simpl. destruct (_ && _); [|discriminate]. now intros [= <-].
Qed.

(** X13: how settings.json feeds a returned summary.  [mcpServers] given
    as an object contributes its keys, given as an array its elements;
    [models] counts only when it is an array; settings that are not an
    object (missing, unreadable, [null], a number, a string, an array)
    contribute nothing. *)
Theorem settings_feed_summary H m caps :
  result (detectClaudeCodeCapabilities H) m = Returned (Some caps) ->
  (forall props servers,
     settings_of H = JObj props ->
     Json.assoc "mcpServers" props = Some (JObj servers) ->
     mcpServers caps = map (fun kv => JStr (fst kv)) servers)
  /\ (forall props items,
        settings_of H = JObj props ->
        Json.assoc "mcpServers" props = Some (JArr items) ->
        mcpServers caps = items)
  /\ (forall props items,
        settings_of H = JObj props ->
        Json.assoc "models" props = Some (JArr items) ->
        models caps = items)
  /\ (forall props v,
        settings_of H = JObj props ->
        Json.assoc "models" props = Some v ->
        Json.isArray v = false ->
        models caps = [])
  /\ ((forall props, settings_of H <> JObj props) ->
      models caps = [] /\ mcpServers caps = []).
Proof.
  intros R. apply capabilities_some_scanned in R. subst caps.
  unfold scanned, models_of_settings, mcpServers_of_settings. simpl.
  repeat split.
  - intros props servers -> Q. simpl. rewrite Q. simpl.
    now rewrite map_map.
  - intros props items -> Q. simpl. now rewrite Q.
  - intros props items -> Q. simpl. now rewrite Q.
  - intros props v -> Q A. simpl. rewrite Q. now destruct v.
  - destruct (settings_of H) as [| | | | |props]; try reflexivity;
      try (now destruct (Json.truthy _)).
    now elim (H0 props).
  - destruct (settings_of H) as [| | | | |props]; try reflexivity;
      try (now destruct (Json.truthy _)).
    now elim (H0 props).
Qed.

Lemma settings_feed_summary_witness :
  mcpServers (scanned Examples.agents_locked) = [JStr "github"]
  /\ models (scanned Examples.agents_locked) = [JStr "opus"].
Proof.
  destruct (settings_feed_summary Examples.agents_locked Examples.fresh
              (scanned Examples.agents_locked) eq_refl)
    as [S [_ [M _]]].
  split.
  - apply (S _ [("github", JObj [])] eq_refl eq_refl).
  - apply (M _ [JStr "opus"] eq_refl eq_refl).
Defined.

(** X14: in a returned summary every entry of [agents] is the name of an
    entry of ~/.claude/agents that [statSync] reports as a directory, and
    likewise for [plugins]; plain files never show up. *)
Theorem directory_groups_hold_directories H m caps :
  result (detectClaudeCodeCapabilities H) m = Returned (Some caps) ->
  let holds dir group :=
    Forall (fun entry =>
              exists name items,
                entry = JStr name
                /\ host_readdirSync H dir = Returned items
                /\ In name items
                /\ host_isDirectory H (join H [dir; name]) = Returned true)
           group in
  holds (join H [claudeDir_of H; "agents"]) (agents caps)
  /\ holds (join H [claudeDir_of H; "plugins"]) (plugins caps).
Proof.
  intros R holds. apply capabilities_some_scanned in R. subst caps.
  assert (G : forall dir, holds dir (map JStr (listed H dir))).
  { intro dir. unfold holds. rewrite Forall_map, Forall_forall.
    intros name I. unfold listed in I.
    destruct (host_existsSync H dir); [|destruct I].
    destruct (host_readdirSync H dir) as [items|e]; [|destruct I].
    apply filter_In in I. destruct I as [I K]. unfold keeps in K.
    exists name, items. repeat split; try assumption.
    destruct (host_isDirectory H (join H [dir; name])) as [[]|];
      [reflexivity | discriminate | discriminate]. }
  split; apply G.
Qed.

Lemma directory_groups_hold_directories_witness :
  Forall (fun entry =>
            exists name items,
              entry = JStr name
              /\ host_readdirSync Examples.agents_locked
                   "/home/u/.claude/plugins" = Returned items
              /\ In name items
              /\ host_isDirectory Examples.agents_locked
                   (join Examples.agents_locked
                      ["/home/u/.claude/plugins"; name]) = Returned true)
         [JStr "fmt"].
Proof.
  apply (proj2 (directory_groups_hold_directories Examples.agents_locked
                  Examples.fresh (scanned Examples.agents_locked) eq_refl)).
Defined.

(* ================================================================= *)
(** ** More on the transport adapters *)










(* ================================================================= *)
(** ** Process probes *)


(* ================================================================= *)
(** ** The path dialog *)

Lemma selectClaudeCodePath_accepts m selectedPath others :
  selectClaudeCodePath
    (Returned (mkDialogResult false (selectedPath :: others))) m
  = (Returned (Some selectedPath), mkMachine (Some selectedPath) (trace m)).
Proof. reflexivity. Qed.

(** X17: [selectClaudeCodePath] changes the manual path only on a real
    selection.  A cancelled dialog or an empty selection returns [null]
    and leaves the path that was set before; a selection stores and
    returns its first file, without testing that it exists; a dialog that
    fails makes the handler throw with the state untouched. *)
Theorem select_path_stores_first_file m :
  (forall chosen,
     canceled chosen = true \/ filePaths chosen = [] ->
     selectClaudeCodePath (Returned chosen) m = (Returned None, m))
  /\ (forall selectedPath others,
        selectClaudeCodePath
          (Returned (mkDialogResult false (selectedPath :: others))) m
        = (Returned (Some selectedPath),
           mkMachine (Some selectedPath) (trace m)))
  /\ (forall e, selectClaudeCodePath (Thrown e) m = (Thrown e, m)).
Proof.
  unfold selectClaudeCodePath, bind, lift, ret. repeat split.
  intros [c files] [Q|Q]; simpl in *; subst; [reflexivity|].
  now rewrite orb_true_r.
Qed.

Lemma select_path_stores_first_file_witness :
  selectClaudeCodePath (Returned (mkDialogResult true ["/opt/claude"]))
    (mkMachine (Some "/usr/local/bin/claude") [])
  = (Returned None, mkMachine (Some "/usr/local/bin/claude") []).
Proof.
  apply (proj1 (select_path_stores_first_file
                  (mkMachine (Some "/usr/local/bin/claude") []))).
  left. reflexivity.
Defined.

(** X18: after the user selected a non-empty path that exists,
    [getClaudeCodeInstallationInfo] reports [installed] with exactly that
    path, whatever the candidates and the probe would give.  A selected
    path that does not exist is stored all the same, and detection then
    answers as if none were set. *)
Theorem selected_path_is_reported H m selectedPath others :
  let select :=
    selectClaudeCodePath
      (Returned (mkDialogResult false (selectedPath :: others))) in
  (JsString.truthy selectedPath = true ->
   host_existsSync H selectedPath = true ->
   exists v,
     result (ignored <- select ;; getClaudeCodeInstallationInfo H) m
     = Returned (mkInstallationInfo true (Some selectedPath) v))
  /\ (host_existsSync H selectedPath = false ->
      result (ignored <- select ;; detectClaudeCodePath H) m
      = Returned (autoDetected H)
      /\ manualClaudeCodePath (after select m) = Some selectedPath).
Proof.
  intro select. split.
  - intros T E. unfold result, bind at 1. unfold select.
    rewrite selectClaudeCodePath_accepts.
    set (m1 := mkMachine _ _).
    unfold getClaudeCodeInstallationInfo, bind at 1.
    destruct (detect_runs H m1) as [evs [D _]]. rewrite D. simpl.
    unfold detected. rewrite T, E. simpl. unfold bind.
    destruct (getClaudeCodeVersion_returns H (extends m1 evs))
      as [v [m' ->]].
    now exists v.
  - intro E. unfold result, after, bind at 1. unfold select.
    rewrite selectClaudeCodePath_accepts.
    set (m1 := mkMachine _ _).
    destruct (detect_runs H m1) as [evs [-> _]]. simpl.
    unfold detected. rewrite E, andb_false_r. now split.
Qed.

Lemma selected_path_is_reported_witness :
  exists v,
    result (ignored <- selectClaudeCodePath
                         (Returned (mkDialogResult false
                                      ["/usr/local/bin/claude"])) ;;
            getClaudeCodeInstallationInfo MoreExamples.working)
           Examples.fresh
    = Returned (mkInstallationInfo true (Some "/usr/local/bin/claude") v).
Proof.
  apply (proj1 (selected_path_is_reported MoreExamples.working Examples.fresh
                  "/usr/local/bin/claude" [])); reflexivity.
Defined.

(* ================================================================= *)
(** ** The hook *)

(** X19: [loadModels] never throws and always ends with the loading flag
    off.  When the IPC call succeeds the list is stored and returned and
    the error is cleared; when it fails the error is stored, the empty
    list is returned and the models stored before stay as they were. *)
Theorem loadModels_settles ipc w :
  exists l w',
    useClaudeCodeModels.loadModels ipc w = (Returned l, w')
    /\ claudeCodeModelsLoadingAtom w' = false
    /\ main w' = after (listLocalClaudeCodeModels ipc) (main w)
    /\ match result (listLocalClaudeCodeModels ipc) (main w) with
       | Returned modelList =>
           l = modelList
           /\ claudeCodeModelsAtom w' = modelList
           /\ claudeCodeModelsErrorAtom w' = None
       | Thrown e =>
           l = []
           /\ claudeCodeModelsAtom w' = claudeCodeModelsAtom w
           /\ claudeCodeModelsErrorAtom w' = Some e
       end.
Proof.
  unfold useClaudeCodeModels.loadModels, result, after. ui_run.
  destruct (listLocalClaudeCodeModels ipc (main w)) as [[modelList|e] m'];
    simpl; eexists _, _; repeat split.
Qed.

Lemma checkInstallation_runs ipc w :
  useClaudeCodeModels.checkInstallation ipc w
  = let info :=
      match result (ipc_getClaudeCodeInstallationInfo ipc) (main w) with
      | Returned i => i
      | Thrown _ => mkInstallationInfo false None None
      end in
    (Returned info,
     mkRenderer (claudeCodeModelsAtom w) (claudeCodeModelsLoadingAtom w)
       (claudeCodeModelsErrorAtom w) (Some info)
       (claudeCodeCapabilitiesAtom w) (isSelecting w) (isInstalling w)
       (isUpdating w) (toasts w)
       (after (ipc_getClaudeCodeInstallationInfo ipc) (main w))).
Proof.
  unfold useClaudeCodeModels.checkInstallation, result, after. ui_run.
  now destruct (ipc_getClaudeCodeInstallationInfo ipc (main w)) as [[i|e] m'].
Qed.

Lemma loadCapabilities_runs ipc w :
  useClaudeCodeModels.loadCapabilities ipc w
  = let caps :=
      match result (ipc_getClaudeCodeCapabilities ipc) (main w) with
      | Returned c => c
      | Thrown _ => None
      end in
    (Returned caps,
     mkRenderer (claudeCodeModelsAtom w) (claudeCodeModelsLoadingAtom w)
       (claudeCodeModelsErrorAtom w) (claudeCodeInstallationAtom w)
       caps (isSelecting w) (isInstalling w)
       (isUpdating w) (toasts w)
       (after (ipc_getClaudeCodeCapabilities ipc) (main w))).
Proof.
  unfold useClaudeCodeModels.loadCapabilities, result, after. ui_run.
  now destruct (ipc_getClaudeCodeCapabilities ipc (main w)) as [[c|e] m'].
Qed.

(** X20: [checkInstallation] and [loadCapabilities] never throw, and the
    atom always ends up holding the value returned.  A failed IPC call is
    reported as [{installed: false, path: null, version: null}],
    respectively [null]: it cannot be told from an absent provider. *)
Theorem refresh_callbacks_settle ipc w :
  (exists info w',
     useClaudeCodeModels.checkInstallation ipc w = (Returned info, w')
     /\ claudeCodeInstallationAtom w' = Some info
     /\ info = match result (ipc_getClaudeCodeInstallationInfo ipc) (main w)
               with
               | Returned i => i
               | Thrown _ => mkInstallationInfo false None None
               end)
  /\ (exists caps w',
        useClaudeCodeModels.loadCapabilities ipc w = (Returned caps, w')
        /\ claudeCodeCapabilitiesAtom w' = caps
        /\ caps = match result (ipc_getClaudeCodeCapabilities ipc) (main w)
                  with
                  | Returned c => c
                  | Thrown _ => None
                  end).
Proof.
  rewrite checkInstallation_runs, loadCapabilities_runs.
  split; eexists _, _; repeat split.
Qed.

Lemma hook_install_runs ipc useSudo w :
  useClaudeCodeModels.installClaudeCode ipc useSudo w
  = let w1 := with_main w (after (ipc_installClaudeCode ipc useSudo) (main w))
    in
    match result (ipc_installClaudeCode ipc useSudo) (main w) with
    | Returned outcome =>
        (Returned outcome,
         if success outcome then
           snd (useClaudeCodeModels.loadCapabilities ipc
                  (snd (useClaudeCodeModels.checkInstallation ipc w1)))
         else w1)
    | Thrown e =>
        (Returned (mkCommandResult false EmptyString (Some (err_message e))),
         w1)
    end.
Proof.
  unfold useClaudeCodeModels.installClaudeCode, result, after, with_main.
  unfold Ui.try_catch, Ui.bind at 1, Ui.invoke.
  destruct (ipc_installClaudeCode ipc useSudo (main w)) as [[outcome|e] m'];
    simpl; [|reflexivity].
  destruct (success outcome); [|reflexivity].
  unfold Ui.bind.
  rewrite checkInstallation_runs. simpl.
  rewrite loadCapabilities_runs. reflexivity.
Qed.

(** X21: the hook's [installClaudeCode] never throws.  It hands back the
    result of the IPC call as it is; installation info and capabilities
    are refreshed exactly when that result is a success, a failed result
    leaves every atom alone, and an IPC call that throws becomes a failed
    result carrying the message. *)
Theorem hook_install_refreshes_on_success ipc useSudo w :
  let w1 := with_main w (after (ipc_installClaudeCode ipc useSudo) (main w)) in
  exists r w',
    useClaudeCodeModels.installClaudeCode ipc useSudo w = (Returned r, w')
    /\ (forall outcome,
          result (ipc_installClaudeCode ipc useSudo) (main w)
          = Returned outcome ->
          r = outcome
          /\ (success outcome = false -> w' = w1)
          /\ (success outcome = true ->
              w' = snd (useClaudeCodeModels.loadCapabilities ipc
                          (snd (useClaudeCodeModels.checkInstallation ipc w1)))
              /\ claudeCodeInstallationAtom w' <> None))
    /\ (forall e,
          result (ipc_installClaudeCode ipc useSudo) (main w) = Thrown e ->
          r = mkCommandResult false EmptyString (Some (err_message e))
          /\ w' = w1).
Proof.
  intro w1. rewrite hook_install_runs. fold w1.
  destruct (result (ipc_installClaudeCode ipc useSudo) (main w))
    as [outcome|e]; eexists _, _; (split; [reflexivity|]); split.
  - intros o [= <-]. split; [reflexivity|].
    split; intro S; rewrite S; [reflexivity|].
    split; [reflexivity|].
    rewrite checkInstallation_runs. simpl.
    rewrite loadCapabilities_runs. simpl. discriminate.
  - discriminate.
  - discriminate.
  - intros e' [= <-]. now split.
Qed.

(* ================================================================= *)
(** ** The settings component *)

Lemma refresh_keeps_component_state ipc w :
  let w' := snd (useClaudeCodeModels.loadCapabilities ipc
                   (snd (useClaudeCodeModels.checkInstallation ipc w))) in
  toasts w' = toasts w
  /\ isInstalling w' = isInstalling w
  /\ isUpdating w' = isUpdating w
  /\ isSelecting w' = isSelecting w.
Proof.
  rewrite checkInstallation_runs. simpl.
  rewrite loadCapabilities_runs. simpl. now repeat split.
Qed.

Lemma handleInstall_runs ipc useSudo w :
  let r :=
    match result (ipc_installClaudeCode ipc useSudo) (main w) with
    | Returned outcome => outcome
    | Thrown e => mkCommandResult false EmptyString (Some (err_message e))
    end in
  let shown :=
    if success r then
      mkToast "Installation successful"
        "Claude Code has been installed successfully." None
    else if ClaudeCodeConfiguration.error_includes r "EACCES" && negb useSudo
    then
      mkToast "Permission denied"
        "Installation requires administrator privileges. Try with sudo?"
        ClaudeCodeConfiguration.destructive
    else
      mkToast "Installation failed"
        (ClaudeCodeConfiguration.or_else (error r)
           "Failed to install Claude Code")
        ClaudeCodeConfiguration.destructive in
  exists w',
    ClaudeCodeConfiguration.handleInstall ipc useSudo w = (Returned tt, w')
    /\ toasts w' = shown :: toasts w
    /\ isInstalling w' = false.
Proof.
  intros r shown. unfold ClaudeCodeConfiguration.handleInstall.
  unfold Ui.bind at 1, Ui.setIsInstalling at 1, Ui.update.
  set (w0 := mkRenderer _ _ _ _ _ _ true _ _ _).
  unfold Ui.finally, Ui.try_catch, Ui.bind.
  rewrite hook_install_runs.
  change (main w0) with (main w). fold r.
  destruct (result (ipc_installClaudeCode ipc useSudo) (main w))
    as [outcome|e] eqn:R; cbv zeta.
  - subst shown r. cbv beta iota zeta.
    destruct (success outcome) eqn:S.
    + destruct (refresh_keeps_component_state ipc
                  (with_main w0 (after (ipc_installClaudeCode ipc useSudo)
                                       (main w))))
        as [T _].
      unfold Ui.toast, Ui.update, Ui.setIsInstalling.
      cbv beta iota zeta. eexists. split; [reflexivity|].
      cbn [toasts isInstalling]. rewrite T. now split.
    + destruct (_ && _); unfold Ui.toast, Ui.update, Ui.setIsInstalling;
        cbv beta iota zeta; eexists; repeat split.
  - subst shown r. cbv beta iota zeta.
    change (success (mkCommandResult false EmptyString
                       (Some (err_message e)))) with false.
    cbv iota.
    destruct (_ && _); unfold Ui.toast, Ui.update, Ui.setIsInstalling;
      cbv beta iota zeta; eexists; repeat split.
Qed.

(** X22: [handleInstall] never throws, shows exactly one toast and always
    ends with [isInstalling] off, whatever the IPC client does.  The toast
    is never the one titled "Installation error": the hook has already
    turned a throwing IPC call into a failed result. *)
Theorem handleInstall_shows_one_toast ipc useSudo w :
  exists shown w',
    ClaudeCodeConfiguration.handleInstall ipc useSudo w = (Returned tt, w')
    /\ toasts w' = shown :: toasts w
    /\ isInstalling w' = false
    /\ (title shown = "Installation successful"
        \/ title shown = "Permission denied"
        \/ title shown = "Installation failed").
Proof.
  destruct (handleInstall_runs ipc useSudo w) as [w' [E [T I]]].
  eexists _, w'. split; [exact E|]. split; [exact T|]. split; [exact I|].
  destruct (success _); [now left|].
  destruct (_ && _); [right; now left | right; now right].
Qed.

(** X23: when the IPC call is served by [installClaudeCode], the toast
    titled "Permission denied" that offers sudo cannot appear: the
    component looks for [EACCES] in an error text from which
    [installClaudeCode] has removed it.  A permission failure is shown as
    "Installation failed" with the fixed permission text. *)
Theorem permission_toast_is_unreachable H ipc useSudo w :
  ipc_installClaudeCode ipc = handleInstallClaudeCode H ->
  exists shown w',
    ClaudeCodeConfiguration.handleInstall ipc useSudo w = (Returned tt, w')
    /\ toasts w' = shown :: toasts w
    /\ title shown <> "Permission denied"
    /\ (forall e,
          host_execSync H (install_command useSudo) = Thrown e ->
          JsString.includes (errorMessage_of e) "EACCES"
          || JsString.includes (errorMessage_of e) "permission denied"
          = true ->
          shown = mkToast "Installation failed" PERMISSION_MESSAGE
                    ClaudeCodeConfiguration.destructive).
Proof.
  intro W.
  destruct (handleInstall_runs ipc useSudo w) as [w' [E [T _]]].
  eexists _, w'. split; [exact E|]. split; [exact T|].
  rewrite W. unfold handleInstallClaudeCode, result.
  rewrite installClaudeCode_runs. simpl.
  destruct (host_execSync H (install_command useSudo)) as [out|e].
  - simpl. split; [discriminate|]. discriminate.
  - destruct (_ || _) eqn:B.
    + simpl. split; [destruct useSudo; discriminate|].
      intros e' [= <-] _. now destruct useSudo.
    + unfold ClaudeCodeConfiguration.error_includes. simpl.
      rewrite (includes_orb_false _ _ _ B). simpl.
      split; [discriminate|]. intros e' [= <-] Q. rewrite Q in B.
      discriminate.
Qed.

Lemma permission_toast_is_unreachable_witness :
  exists w',
    ClaudeCodeConfiguration.handleInstall
      (backed_by Examples.npm_denied (Returned (mkDialogResult true [])))
      false (RendererExamples.idle Examples.fresh)
    = (Returned tt, w')
    /\ toasts w' = [ mkToast "Installation failed" PERMISSION_MESSAGE
                       ClaudeCodeConfiguration.destructive ].
Proof.
  destruct (permission_toast_is_unreachable Examples.npm_denied
              (backed_by Examples.npm_denied
                 (Returned (mkDialogResult true [])))
              false (RendererExamples.idle Examples.fresh) eq_refl)
    as [shown [w' [E [T [_ P]]]]].
  exists w'. split; [exact E|]. rewrite T.
  now rewrite (P _ eq_refl eq_refl).
Defined.

Lemma handleInstall_shows_one_toast_witness :
  exists w',
    ClaudeCodeConfiguration.handleInstall
      (backed_by MoreExamples.working (Returned (mkDialogResult true [])))
      false (RendererExamples.idle Examples.fresh)
    = (Returned tt, w')
    /\ isInstalling w' = false
    /\ List.length (toasts w') = 1.
Proof.
  destruct (handleInstall_shows_one_toast
              (backed_by MoreExamples.working
                 (Returned (mkDialogResult true [])))
              false (RendererExamples.idle Examples.fresh))
    as [shown [w' [E [T [I _]]]]].
  exists w'. split; [exact E|]. split; [exact I|]. now rewrite T.
Defined.

Lemma hook_selectPath_runs ipc w :
  useClaudeCodeModels.selectPath ipc w
  = let w1 := with_main w (after (ipc_selectClaudeCodePath ipc) (main w)) in
    match result (ipc_selectClaudeCodePath ipc) (main w) with
    | Returned selectedPath =>
        (Returned selectedPath,
         if truthy_path selectedPath then
           snd (useClaudeCodeModels.loadCapabilities ipc
                  (snd (useClaudeCodeModels.checkInstallation ipc w1)))
         else w1)
    | Thrown _ => (Returned None, w1)
    end.
Proof.
  unfold useClaudeCodeModels.selectPath, result, after, with_main.
  unfold Ui.try_catch, Ui.bind at 1, Ui.invoke.
  destruct (ipc_selectClaudeCodePath ipc (main w)) as [[selectedPath|e] m'];
    simpl; [|reflexivity].
  destruct (truthy_path selectedPath); [|reflexivity].
  unfold Ui.bind.
  rewrite checkInstallation_runs. simpl.
  rewrite loadCapabilities_runs. reflexivity.
Qed.

Lemma handleSelectPath_runs ipc w :
  let w1 := with_main w (after (ipc_selectClaudeCodePath ipc) (main w)) in
  let picked :=
    match result (ipc_selectClaudeCodePath ipc) (main w) with
    | Returned selectedPath => truthy_path selectedPath
    | Thrown _ => false
    end in
  exists w',
    ClaudeCodeConfiguration.handleSelectPath ipc w = (Returned tt, w')
    /\ isSelecting w' = false
    /\ toasts w'
       = (if picked
          then [mkToast "Path selected"
                  "Claude Code path has been set successfully." None]
          else []) ++ toasts w
    /\ claudeCodeInstallationAtom w'
       = (if picked
          then claudeCodeInstallationAtom
                 (snd (useClaudeCodeModels.checkInstallation ipc w1))
          else claudeCodeInstallationAtom w)
    /\ main w'
       = (if picked
          then main (snd (useClaudeCodeModels.loadCapabilities ipc
                            (snd (useClaudeCodeModels.checkInstallation
                                    ipc w1))))
          else main w1).
Proof.
  intros w1 picked. unfold ClaudeCodeConfiguration.handleSelectPath.
  unfold Ui.bind at 1, Ui.setIsSelecting at 1, Ui.update.
  set (w0 := mkRenderer _ _ _ _ _ true _ _ _ _).
  unfold Ui.finally, Ui.try_catch, Ui.bind.
  rewrite hook_selectPath_runs.
  change (main w0) with (main w).
  subst picked.
  destruct (result (ipc_selectClaudeCodePath ipc) (main w))
    as [selectedPath|e]; cbv beta iota zeta.
  - destruct (truthy_path selectedPath).
    + unfold Ui.toast, Ui.update, Ui.setIsSelecting. cbv beta iota zeta.
      eexists. split; [reflexivity|].
      cbn [toasts isSelecting claudeCodeInstallationAtom main].
      subst w1.
      rewrite !checkInstallation_runs. cbn [snd].
      rewrite !loadCapabilities_runs. cbn. now repeat split.
    + unfold Ui.ret, Ui.update, Ui.setIsSelecting. cbv beta iota zeta.
      eexists. repeat split.
  - unfold Ui.ret, Ui.update, Ui.setIsSelecting. cbv beta iota zeta.
    eexists. repeat split.
Qed.

(** X24: [handleSelectPath] never throws and always ends with
    [isSelecting] off.  It shows the "Path selected" toast exactly when
    the IPC call returned a non-empty path and no toast otherwise: a
    cancelled dialog and a failed IPC call look the same, and the "Error"
    toast of its [catch] cannot appear. *)
Theorem handleSelectPath_toasts_on_selection ipc w :
  exists w',
    ClaudeCodeConfiguration.handleSelectPath ipc w = (Returned tt, w')
    /\ isSelecting w' = false
    /\ toasts w'
       = match result (ipc_selectClaudeCodePath ipc) (main w) with
         | Returned (Some (String c s)) =>
             mkToast "Path selected"
               "Claude Code path has been set successfully." None
             :: toasts w
         | _ => toasts w
         end.
Proof.
  destruct (handleSelectPath_runs ipc w) as [w' [E [I [T _]]]].
  exists w'. split; [exact E|]. split; [exact I|]. rewrite T.
  destruct (result (ipc_selectClaudeCodePath ipc) (main w)) as [[[|c s]|]|];
    reflexivity.
Qed.

Lemma detectClaudeCodeCapabilities_extends H m :
  exists evs, after (detectClaudeCodeCapabilities H) m = extends m evs.
Proof.
  unfold after.
  destruct (detect_runs H m) as [evs [E _]].
  unfold detectClaudeCodeCapabilities, bind at 1. rewrite E.
  destruct (truthy_path _); simpl; [|now exists evs].
  fold (claudeDir_of H).
  unfold try_catch, bind at 1, existsSync at 1, query.
  destruct (host_existsSync H (claudeDir_of H)); simpl.
  2:{ exists (FsExists (claudeDir_of H) :: evs). reflexivity. }
  set (m1 := record _ _).
  assert (M1 : m1 = extends m (FsExists (claudeDir_of H) :: evs))
    by reflexivity.
  pose proof (optional_listing_runs H (join H [claudeDir_of H; "agents"]) m1)
    as [ea Ea].
  unfold bind at 1 2. unfold bind at 1 in Ea.
  destruct (existsSync H (join H [claudeDir_of H; "agents"]) m1)
    as [[ha|?] m2]; [|destruct ea; discriminate].
  rewrite Ea.
  pose proof (optional_listing_runs H (join H [claudeDir_of H; "plugins"])
                (extends m1 ea)) as [ep Ep].
  unfold bind at 1 2. unfold bind at 1 in Ep.
  destruct (existsSync H (join H [claudeDir_of H; "plugins"]) (extends m1 ea))
    as [[hp|?] m3]; [|destruct ep; discriminate].
  rewrite Ep.
  unfold bind at 1.
  destruct (readClaudeCodeSettings_runs H (extends (extends m1 ea) ep))
    as [es ->].
  simpl. rewrite M1, !extends_extends. now eexists.
Qed.

Lemma info_with_manual_path H m p :
  manualClaudeCodePath m = Some p ->
  JsString.truthy p = true ->
  host_existsSync H p = true ->
  exists v m',
    getClaudeCodeInstallationInfo H m
    = (Returned (mkInstallationInfo true (Some p) v), m')
    /\ manualClaudeCodePath m' = Some p.
Proof.
  intros M T E. unfold getClaudeCodeInstallationInfo, bind at 1.
  destruct (detect_runs H m) as [evs [D _]]. rewrite D, M.
  unfold detected. rewrite T, E. simpl. unfold bind.
  destruct (getClaudeCodeVersion_runs H (extends m evs)) as [evs' [_ [_ V]]].
  simpl in V. rewrite M in V. unfold detected in V. rewrite T, E in V.
  simpl in V. rewrite T in V. rewrite V.
  destruct (host_execSync H (version_command p)); eexists _, _;
    (split; [reflexivity | exact M]).
Qed.

(** X25: end to end, with the IPC client served by the handlers on host
    [H]: when the user picks a non-empty path that exists, after
    [handleSelectPath] the installation atom says [installed] with exactly
    that path, the main process holds it as manual path, and the "Path
    selected" toast is shown. *)
Theorem picked_path_reaches_the_atoms H selectedPath others w :
  JsString.truthy selectedPath = true ->
  host_existsSync H selectedPath = true ->
  let ipc :=
    backed_by H (Returned (mkDialogResult false (selectedPath :: others))) in
  exists v w',
    ClaudeCodeConfiguration.handleSelectPath ipc w = (Returned tt, w')
    /\ claudeCodeInstallationAtom w'
       = Some (mkInstallationInfo true (Some selectedPath) v)
    /\ manualClaudeCodePath (main w') = Some selectedPath
    /\ toasts w'
       = mkToast "Path selected"
           "Claude Code path has been set successfully." None :: toasts w.
Proof.
  intros T E ipc.
  destruct (handleSelectPath_runs ipc w) as [w' [R [_ [Ts [A Mn]]]]].
  assert (S : ipc_selectClaudeCodePath ipc (main w)
              = (Returned (Some selectedPath),
                 mkMachine (Some selectedPath) (trace (main w)))).
  { apply selectClaudeCodePath_accepts. }
  unfold result, after in *. rewrite S in *. simpl in Ts, A, Mn.
  rewrite T in *.
  set (m1 := mkMachine (Some selectedPath) (trace (main w))) in *.
  destruct (info_with_manual_path H m1 selectedPath eq_refl T E)
    as [v [m2 [I M2]]].
  rewrite checkInstallation_runs in A, Mn. simpl in A, Mn.
  rewrite loadCapabilities_runs in Mn. simpl in Mn.
  unfold result, after in *. simpl in A, Mn.
  change (ipc_getClaudeCodeInstallationInfo ipc)
    with (getClaudeCodeInstallationInfo H) in *.
  change (ipc_getClaudeCodeCapabilities ipc)
    with (detectClaudeCodeCapabilities H) in *.
  rewrite I in *. simpl in A, Mn.
  exists v, w'. split; [exact R|]. split; [exact A|]. split; [|exact Ts].
  rewrite Mn.
  destruct (detectClaudeCodeCapabilities_extends H m2) as [evs X].
  unfold after in X. unfold getClaudeCodeCapabilities. rewrite X. exact M2.
Qed.

Lemma picked_path_reaches_the_atoms_witness :
  exists v w',
    ClaudeCodeConfiguration.handleSelectPath
      (backed_by MoreExamples.working
         (Returned (mkDialogResult false ["/usr/local/bin/claude"])))
      (RendererExamples.idle Examples.fresh)
    = (Returned tt, w')
    /\ claudeCodeInstallationAtom w'
       = Some (mkInstallationInfo true (Some "/usr/local/bin/claude") v).
Proof.
  destruct (picked_path_reaches_the_atoms MoreExamples.working
              "/usr/local/bin/claude" []
              (RendererExamples.idle Examples.fresh) eq_refl eq_refl)
    as [v [w' [R [A _]]]].
  now exists v, w'.
Defined.

Lemma hook_update_runs ipc w :
  useClaudeCodeModels.updateClaudeCode ipc w
  = let w1 := with_main w (after (ipc_updateClaudeCode ipc) (main w)) in
    match result (ipc_updateClaudeCode ipc) (main w) with
    | Returned outcome =>
        (Returned outcome,
         if success outcome then
           snd (useClaudeCodeModels.loadCapabilities ipc
                  (snd (useClaudeCodeModels.checkInstallation ipc w1)))
         else w1)
    | Thrown e =>
        (Returned (mkCommandResult false EmptyString (Some (err_message e))),
         w1)
    end.
Proof.
  unfold useClaudeCodeModels.updateClaudeCode, result, after, with_main.
  unfold Ui.try_catch, Ui.bind at 1, Ui.invoke.
  destruct (ipc_updateClaudeCode ipc (main w)) as [[outcome|e] m'];
    simpl; [|reflexivity].
  destruct (success outcome); [|reflexivity].
  unfold Ui.bind.
  rewrite checkInstallation_runs. simpl.
  rewrite loadCapabilities_runs. reflexivity.
Qed.

(** X28: end to end, with the IPC client served by the handlers on host
    [H]: pressing update while detection finds nothing never throws, shows
    the single toast "Update failed" with the text "Claude Code is not
    installed", ends with [isUpdating] off, refreshes no atom and runs no
    [clu update] in the main process. *)
Theorem update_without_provider_is_refused H dialog w :
  result (detectClaudeCodePath H) (main w) = Returned None ->
  let ipc := backed_by H dialog in
  exists w' evs,
    ClaudeCodeConfiguration.handleUpdate ipc w = (Returned tt, w')
    /\ toasts w'
       = mkToast "Update failed" "Claude Code is not installed"
           ClaudeCodeConfiguration.destructive :: toasts w
    /\ isUpdating w' = false
    /\ claudeCodeInstallationAtom w' = claudeCodeInstallationAtom w
    /\ claudeCodeCapabilitiesAtom w' = claudeCodeCapabilitiesAtom w
    /\ main w' = extends (main w) evs
    /\ ~ In (Exec "clu update") evs.
Proof.
  intros D ipc.
  assert (U : ipc_updateClaudeCode ipc (main w)
              = (Returned (mkCommandResult false EmptyString
                             (Some "Claude Code is not installed")),
                 after (detectClaudeCodePath H) (main w))).
  { unfold ipc, backed_by, handleUpdateClaudeCode. simpl.
    unfold result, after in *.
    destruct (detect_runs H (main w)) as [evs [E _]].
    rewrite E in D. simpl in D. injection D as D. rewrite D in E.
    unfold updateClaudeCode, bind. now rewrite E. }
  destruct (detect_runs H (main w)) as [evs [E Hev]].
  unfold ClaudeCodeConfiguration.handleUpdate.
  unfold Ui.bind at 1, Ui.setIsUpdating at 1, Ui.update.
  set (w0 := mkRenderer _ _ _ _ _ _ _ true _ _).
  unfold Ui.finally, Ui.try_catch, Ui.bind.
  rewrite hook_update_runs. change (main w0) with (main w).
  unfold result, after. rewrite U. unfold after. rewrite E.
  cbv beta iota zeta.
  unfold Ui.toast, Ui.update, Ui.setIsUpdating. simpl.
  eexists _, evs. repeat split.
  now apply detection_effect_not_update.
Qed.

Lemma update_without_provider_is_refused_witness :
  exists w',
    ClaudeCodeConfiguration.handleUpdate
      (backed_by Examples.bare (Returned (mkDialogResult true [])))
      (RendererExamples.idle Examples.fresh)
    = (Returned tt, w')
    /\ toasts w'
       = [ mkToast "Update failed" "Claude Code is not installed"
             ClaudeCodeConfiguration.destructive ].
Proof.
  destruct (update_without_provider_is_refused Examples.bare
              (Returned (mkDialogResult true []))
              (RendererExamples.idle Examples.fresh) eq_refl)
    as [w' [evs [R [T _]]]].
  now exists w'.
Defined.

(* ================================================================= *)
(** ** The token meter *)

Module TokenMeterFacts.
Import StreamingTokenBudget.

Lemma above_95_is_above_80 (p : float) :
  PrimFloat.ltb 95%float p = true -> PrimFloat.ltb 80%float p = true.
Proof.
  rewrite !ltb_spec.
  change (Prim2SF 95%float) with sf95. change (Prim2SF 80%float) with sf80.
  unfold SpecFloat.SFltb, SpecFloat.SFcompare, sf95, sf80.
  destruct (Prim2SF p) as [s|s| |s m e]; try (destruct s);
    try discriminate; try reflexivity.
  destruct (Z.compare (-46) e) eqn:C; try discriminate; try reflexivity.
  rewrite !Pos.compare_cont_spec. simpl.
  destruct (Pos.compare_spec 6685030696878080 m); try discriminate.
  intros _. assert (L : (5629499534213120 < m)%positive) by lia.
  apply Pos.compare_lt_iff in L. now rewrite L.
Qed.

Lemma SFcompare_flip x y :
  SpecFloat.SFcompare y x
  = match SpecFloat.SFcompare x y with
    | Some c => Some (CompOpp c)
    | None => None
    end.
Proof.
  unfold SpecFloat.SFcompare.
  destruct x as [s|s| |s m e], y as [s'|s'| |s' m' e'];
    try (destruct s); try (destruct s'); try reflexivity.
  - rewrite (Z.compare_antisym e e'), !Pos.compare_cont_spec,
      (Pos.compare_antisym m m').
    destruct (Z.compare e e'), (Pos.compare m m'); reflexivity.
  - rewrite (Z.compare_antisym e e'), !Pos.compare_cont_spec,
      (Pos.compare_antisym m m').
    destruct (Z.compare e e'), (Pos.compare m m'); reflexivity.
Qed.

Lemma SFcompare_self x y c :
  SpecFloat.SFcompare x y = Some c -> SpecFloat.SFcompare x x = Some Eq.
Proof.
  unfold SpecFloat.SFcompare.
  destruct x as [s|s| |s m e]; try (destruct s); try reflexivity;
    try (destruct y; discriminate);
    intros _; rewrite Z.compare_refl, Pos.compare_cont_spec, Pos.compare_refl;
    reflexivity.
Qed.

Lemma below_is_not_above (a b : float) :
  PrimFloat.ltb a b = true -> PrimFloat.ltb b a = false.
Proof.
  rewrite !ltb_spec. unfold SpecFloat.SFltb.
  rewrite (SFcompare_flip (Prim2SF a) (Prim2SF b)).
  now destruct (SpecFloat.SFcompare (Prim2SF a) (Prim2SF b)) as [[]|].
Qed.

Lemma at_most_is_not_above (a b : float) :
  PrimFloat.leb a b = true -> PrimFloat.ltb b a = false.
Proof.
  rewrite leb_spec, ltb_spec. unfold SpecFloat.SFleb, SpecFloat.SFltb.
  rewrite (SFcompare_flip (Prim2SF a) (Prim2SF b)).
  now destruct (SpecFloat.SFcompare (Prim2SF a) (Prim2SF b)) as [[]|].
Qed.

Lemma at_most_is_a_number (a b : float) :
  PrimFloat.leb a b = true -> PrimFloat.is_nan a = false.
Proof.
  unfold PrimFloat.is_nan. rewrite leb_spec, eqb_spec.
  unfold SpecFloat.SFleb, SpecFloat.SFeqb.
  destruct (SpecFloat.SFcompare (Prim2SF a) (Prim2SF b)) as [c|] eqn:C;
    [|discriminate].
  now rewrite (SFcompare_self _ _ _ C).
Qed.

Lemma above_is_a_number (a b : float) :
  PrimFloat.ltb b a = true -> PrimFloat.is_nan a = false.
Proof.
  unfold PrimFloat.is_nan. rewrite ltb_spec, eqb_spec.
  unfold SpecFloat.SFltb, SpecFloat.SFeqb.
  rewrite (SFcompare_flip (Prim2SF a) (Prim2SF b)).
  destruct (SpecFloat.SFcompare (Prim2SF a) (Prim2SF b)) as [c|] eqn:C;
    [|discriminate].
  now rewrite (SFcompare_self _ _ _ C).
Qed.

(** X26: the two limits are nested for every pair of numbers, NaN and
    infinities included: a budget at the limit is also near the limit.  So
    while streaming, the "limit reached" warning is shown exactly when the
    meter is red, the "approaching" warning exactly when it is near but
    not at the limit, and no warning otherwise. *)
Theorem limit_levels_are_nested sessionId tokenBudget :
  (isAtLimit tokenBudget = true -> isNearLimit tokenBudget = true)
  /\ exists view,
       render sessionId (Some tokenBudget) true = Some view
       /\ (warning view = Some LimitReached <-> isAtLimit tokenBudget = true)
       /\ (barClass view = "bg-red-500" <-> isAtLimit tokenBudget = true)
       /\ (warning view = Some Approaching <->
           isNearLimit tokenBudget = true /\ isAtLimit tokenBudget = false)
       /\ (warning view = None <-> isNearLimit tokenBudget = false).
Proof.
  assert (N : isAtLimit tokenBudget = true -> isNearLimit tokenBudget = true)
    by apply above_95_is_above_80.
  split; [exact N|].
  unfold render. cbv beta iota zeta. cbn [negb].
  eexists. split; [reflexivity|]. cbn [warning barClass].
  destruct (isAtLimit tokenBudget), (isNearLimit tokenBudget);
    try (specialize (N eq_refl); discriminate N);
    repeat split; try discriminate; try reflexivity;
    try (intros [? ?]; discriminate).
Qed.

(** X27: the bar never overflows: for every pair of numbers its width is
    not above 100.  It is the percentage itself when that is at most 100,
    and 100 when the percentage is above. *)
Theorem bar_width_is_capped sessionId tokenBudget :
  exists view,
    render sessionId (Some tokenBudget) true = Some view
    /\ PrimFloat.ltb 100%float (barWidth view) = false
    /\ (PrimFloat.leb (percentage tokenBudget) 100%float = true ->
        barWidth view = percentage tokenBudget)
    /\ (PrimFloat.ltb 100%float (percentage tokenBudget) = true ->
        barWidth view = 100%float).
Proof.
  unfold render. cbv beta iota zeta. cbn [negb].
  eexists. split; [reflexivity|]. cbn [barWidth].
  unfold Math_min. set (p := percentage tokenBudget).
  change (PrimFloat.is_nan 100%float) with false. rewrite orb_false_r.
  change (PrimFloat.get_sign 100%float) with false. cbv iota.
  split; [|split].
  - destruct (PrimFloat.is_nan p); [reflexivity|].
    destruct (PrimFloat.ltb p 100%float) eqn:L;
      [now apply below_is_not_above|].
    destruct (PrimFloat.ltb 100%float p) eqn:G; [reflexivity | exact G].
  - intro L. rewrite (at_most_is_a_number p _ L).
    rewrite (at_most_is_not_above p _ L).
    now destruct (PrimFloat.ltb p 100%float).
  - intro G. rewrite (above_is_a_number p _ G), G.
    destruct (PrimFloat.ltb p 100%float) eqn:L; [|reflexivity].
    apply below_is_not_above in L. rewrite L in G. discriminate.
Qed.

End TokenMeterFacts.
